(** * Relationship introspection of [DS.Model] and the JSON serializer hooks

    A shallow embedding of
    [packages/ember-data/lib/system/relationships/ext.js] (the class methods
    [typeForRelationship], [inverseFor] and the computed properties
    [relationships], [relationshipNames], [relatedTypes],
    [relationshipsByName], [fields]) and of the serializer exercised by the
    integration tests of [DS.JSONSerializer]. *)

From Stdlib Require Import String List Bool ZArith Lia Permutation.
Import ListNotations.
Open Scope string_scope.

Set Warnings "-register-all".

(** ** Host framework: assertions

    [Ember.assert(message, test)] throws when [test] is falsy.  A call that
    dereferences [undefined] throws a [TypeError]. *)

Inductive Result (A : Type) : Type :=
| Ok (a : A)
| AssertionFailed (message : string)
| TypeError.

Arguments Ok {A} a.
Arguments AssertionFailed {A} message.
Arguments TypeError {A}.

Definition bind {A B : Type} (r : Result A) (k : A -> Result B) : Result B :=
  match r with
  | Ok a => k a
  | AssertionFailed message => AssertionFailed message
  | TypeError => TypeError
  end.

Notation "x <- r ;; k" := (bind r (fun x => k))
  (at level 61, r at next level, right associativity).

Definition assert (message : string) (test : bool) : Result unit :=
  if test then Ok tt else AssertionFailed message.

(** ** Host framework: [Ember.Map]

    Keys are kept in insertion order; [set] on a present key replaces the
    value in place, [get] on an absent key is [undefined]. *)

Module EmberMap.
Section WithKey.
Context {K V : Type} (eqb : K -> K -> bool).

Fixpoint get (m : list (K * V)) (k : K) : option V :=
  match m with
  | [] => None
  | (k', v) :: rest => if eqb k' k then Some v else get rest k
  end.

Fixpoint set (m : list (K * V)) (k : K) (v : V) : list (K * V) :=
  match m with
  | [] => [(k, v)]
  | (k', v') :: rest =>
      if eqb k' k then (k', v) :: rest else (k', v') :: set rest k v
  end.

Definition keys (m : list (K * V)) : list K := map fst m.

(** [Ember.MapWithDefault]: [get] on an absent key yields the default. *)
Definition getWithDefault (default : V) (m : list (K * V)) (k : K) : V :=
  match get m k with
  | Some v => v
  | None => default
  end.

(** A loop that [set]s a value for some of the enumerated entries. *)
Definition writes {P : Type} (key : P -> K) (value : P -> option V)
    (l : list P) (m : list (K * V)) : list (K * V) :=
  fold_left (fun m p => match value p with
                        | Some v => set m (key p) v
                        | None => m
                        end) l m.

(** The value the loop writes last under [k], if any. *)
Fixpoint lastWrite {P : Type} (key : P -> K) (value : P -> option V)
    (l : list P) (k : K) (found : option V) : option V :=
  match l with
  | [] => found
  | p :: rest =>
      lastWrite key value rest k
        (match value p with
         | Some v => if eqb (key p) k then Some v else found
         | None => found
         end)
  end.
End WithKey.
End EmberMap.

(** ** Property metadata *)

Inductive Kind : Type := HasMany | BelongsTo.

Definition kindName (k : Kind) : string :=
  match k with
  | HasMany => "hasMany"
  | BelongsTo => "belongsTo"
  end.

(** The value of [options.inverse]: absent, [null], or a relationship name. *)
Inductive InverseOption : Type :=
| InverseUndefined
| InverseNull
| InverseName (name : string).

Record Options : Type := mkOptions {
  opt_inverse : InverseOption;
  opt_polymorphic : bool
}.

(** The metadata of a computed property.  [meta_kind], [meta_type] and
    [meta_options] are read only when [isRelationship] is set.  [meta_key] is
    assigned by the introspection properties before each read.
    [meta_parentType] is kept as the text of the declaring class: ext.js only
    concatenates it into a message. *)
Record Meta : Type := mkMeta {
  isRelationship : bool;
  isAttribute : bool;
  meta_kind : Kind;
  meta_type : string;
  meta_options : Options;
  meta_parentType : string;
  meta_key : string
}.

Definition setKey (name : string) (meta : Meta) : Meta :=
  mkMeta (isRelationship meta) (isAttribute meta) (meta_kind meta)
         (meta_type meta) (meta_options meta) (meta_parentType meta) name.

(** A model class: its [typeKey], its text ([toString]), its [superclass] and
    the computed properties [eachComputedProperty] enumerates, in order. *)
Inductive ModelClass : Type := mkClass {
  typeKey : string;
  toString : string;
  superclass : option ModelClass;
  computedProperties : list (string * Meta)
}.

Definition Kind_eq_dec (a b : Kind) : {a = b} + {a <> b}.
Proof. decide equality. Defined.

Definition InverseOption_eq_dec (a b : InverseOption) : {a = b} + {a <> b}.
Proof. decide equality. apply string_dec. Defined.

Definition Options_eq_dec (a b : Options) : {a = b} + {a <> b}.
Proof. decide equality. apply bool_dec. apply InverseOption_eq_dec. Defined.

Definition Meta_eq_dec (a b : Meta) : {a = b} + {a <> b}.
Proof.
  decide equality;
    solve [ apply string_dec | apply bool_dec | apply Kind_eq_dec
          | apply Options_eq_dec ].
Defined.

Definition property_eq_dec (x y : string * Meta) : {x = y} + {x <> y}.
Proof. decide equality. apply Meta_eq_dec. apply string_dec. Defined.

Fixpoint Class_eq_dec (a b : ModelClass) {struct a} : {a = b} + {a <> b}.
Proof.
  destruct a as [k1 s1 sup1 p1], b as [k2 s2 sup2 p2].
  destruct (string_dec k1 k2) as [-> | ne]; [ | right; congruence ].
  destruct (string_dec s1 s2) as [-> | ne]; [ | right; congruence ].
  destruct (list_eq_dec property_eq_dec p1 p2) as [-> | ne];
    [ | right; congruence ].
  destruct sup1 as [c1 | ], sup2 as [c2 | ].
  - destruct (Class_eq_dec c1 c2) as [-> | ne];
      [ left; reflexivity | right; congruence ].
  - right; congruence.
  - right; congruence.
  - left; reflexivity.
Defined.

(** Identity of classes as map keys and in [contains]; [None] is
    [undefined]. *)
Definition sameClass (a b : ModelClass) : bool :=
  if Class_eq_dec a b then true else false.

Definition sameType (a b : option ModelClass) : bool :=
  match a, b with
  | Some x, Some y => sameClass x y
  | None, None => true
  | _, _ => false
  end.

Definition truthy {A : Type} (v : option A) : bool :=
  match v with Some _ => true | None => false end.

(** ** Descriptors *)

(** An entry of the [relationships] map: [{ name, kind }]. *)
Record RelationshipEntry : Type := mkEntry {
  ent_name : string;
  ent_kind : Kind
}.

(** A value of [relationshipsByName]: [{ key, kind, type, options }]. *)
Record Relationship : Type := mkRelationship {
  rel_key : string;
  rel_kind : Kind;
  rel_type : option ModelClass;
  rel_options : Options
}.

(** The result of [inverseFor]: [{ type, name, kind }]. *)
Record Inverse : Type := mkInverse {
  inv_type : ModelClass;
  inv_name : string;
  inv_kind : Kind
}.

(** [relationshipNames]: [{ hasMany: [...], belongsTo: [...] }]. *)
Record Names : Type := mkNames {
  names_hasMany : list string;
  names_belongsTo : list string
}.

(** [options.inverse === null]. *)
Definition isNull (i : InverseOption) : bool :=
  match i with
  | InverseNull => true
  | _ => false
  end.

(** [if (options.inverse)]: the name when the value is truthy; [undefined],
    [null] and the empty string are falsy. *)
Definition namedInverse (i : InverseOption) : option string :=
  match i with
  | InverseName name => if name =? "" then None else Some name
  | _ => None
  end.

(** [eachComputedProperty(callback)] with the state the callback updates. *)
Definition eachComputedProperty {S : Type} (this : ModelClass)
    (callback : S -> string -> Meta -> S) (init : S) : S :=
  fold_left (fun acc p => callback acc (fst p) (snd p))
            (computedProperties this) init.

(** [metaForProperty(name)]: the metadata of the computed property [name];
    the host framework asserts that the property exists. *)
Definition metaForProperty (this : ModelClass) (name : string) : Result Meta :=
  match EmberMap.get String.eqb (computedProperties this) name with
  | Some meta => Ok meta
  | None =>
      AssertionFailed
        ("metaForProperty() could not find a computed property with key '"
           ++ name ++ "'.")
  end.

(** ** relationships/ext.js *)

Module Ext.
Section Store.

(** [typeForRelationshipMeta(store, meta)] of [relationship-meta.js], with the
    store fixed: the class a relationship's metadata resolves to, [None] when
    there is none. *)
Variable typeForRelationshipMeta : Meta -> option ModelClass.

(** Modelled from the spec: [relationshipFromMeta] of [relationship-meta.js]
    is not part of the sources; the documentation of [relationshipsByName]
    gives the descriptor it builds, [{ key, kind, type }], and the serializer
    tests read [options] from it. *)
Definition relationshipFromMeta (meta : Meta) : Relationship :=
  mkRelationship (meta_key meta) (meta_kind meta)
                 (typeForRelationshipMeta meta) (meta_options meta).

Definition setType (type : option ModelClass) (r : Relationship) : Relationship :=
  mkRelationship (rel_key r) (rel_kind r) type (rel_options r).

Definition relationships (this : ModelClass)
  : list (option ModelClass * list RelationshipEntry) :=
  eachComputedProperty this
    (fun map name meta =>
       if isRelationship meta then
         let meta := setKey name meta in
         let type := typeForRelationshipMeta meta in
         let relationshipsForType :=
           EmberMap.getWithDefault sameType [] map type in
         EmberMap.set sameType map type
           (relationshipsForType ++ [mkEntry name (meta_kind meta)])%list
       else map)
    [].

Definition pushName (names : Names) (kind : Kind) (name : string) : Names :=
  match kind with
  | HasMany =>
      mkNames (names_hasMany names ++ [name])%list (names_belongsTo names)
  | BelongsTo =>
      mkNames (names_hasMany names) (names_belongsTo names ++ [name])%list
  end.

Definition relationshipNames (this : ModelClass) : Names :=
  eachComputedProperty this
    (fun names name meta =>
       if isRelationship meta then pushName names (meta_kind meta) name
       else names)
    (mkNames [] []).

Definition contains (types : list (option ModelClass))
    (type : option ModelClass) : bool :=
  existsb (sameType type) types.

Definition relatedTypes (this : ModelClass) : Result (list (option ModelClass)) :=
  eachComputedProperty this
    (fun acc name meta =>
       types <- acc ;;
       if isRelationship meta then
         let meta := setKey name meta in
         let type := typeForRelationshipMeta meta in
         _ <- assert ("You specified a hasMany (" ++ meta_type meta ++ ") on "
                        ++ meta_parentType meta ++ " but " ++ meta_type meta
                        ++ " was not found.") (truthy type) ;;
         if negb (contains types type) then
           _ <- assert ("Trying to sideload " ++ name ++ " on "
                          ++ toString this ++ " but the type doesn't exist.")
                       (truthy type) ;;
           Ok (types ++ [type])%list
         else Ok types
       else Ok types)
    (Ok []).

Definition relationshipsByName (this : ModelClass)
  : list (string * Relationship) :=
  eachComputedProperty this
    (fun map name meta =>
       if isRelationship meta then
         let meta := setKey name meta in
         let relationship := relationshipFromMeta meta in
         let relationship :=
           setType (typeForRelationshipMeta meta) relationship in
         EmberMap.set String.eqb map name relationship
       else map)
    [].

Definition fields (this : ModelClass) : list (string * string) :=
  eachComputedProperty this
    (fun map name meta =>
       if isRelationship meta then
         EmberMap.set String.eqb map name (kindName (meta_kind meta))
       else if isAttribute meta then
         EmberMap.set String.eqb map name "attribute"
       else map)
    [].

Definition typeForRelationship (this : ModelClass) (name : string)
  : option ModelClass :=
  match EmberMap.get String.eqb (relationshipsByName this) name with
  | Some relationship => rel_type relationship
  | None => None
  end.

Fixpoint findPossibleInverses (type inverseType : ModelClass)
    (possibleRelationships : list RelationshipEntry)
  : list RelationshipEntry :=
  let relationshipMap := relationships inverseType in
  let possibleRelationships :=
    (possibleRelationships
       ++ EmberMap.getWithDefault sameType [] relationshipMap (Some type))%list
  in
  match type with
  | mkClass _ _ (Some super) _ =>
      findPossibleInverses super inverseType possibleRelationships
  | mkClass _ _ None _ => possibleRelationships
  end.

Definition inverseFor (this : ModelClass) (name : string)
  : Result (option Inverse) :=
  let inverseType := typeForRelationship this name in
  match inverseType with
  | None => Ok None
  | Some inverseType =>
      meta <- metaForProperty this name ;;
      let options := meta_options meta in
      if isNull (opt_inverse options) then Ok None
      else
        match namedInverse (opt_inverse options) with
        | Some inverseName =>
            let inverse :=
              EmberMap.get String.eqb (relationshipsByName inverseType)
                           inverseName in
            _ <- assert ("We found no inverse relationships by the name of '"
                           ++ inverseName ++ "' on the '"
                           ++ typeKey inverseType
                           ++ "' model. This is most likely due to a missing attribute on your model definition.")
                        (truthy inverse) ;;
            match inverse with
            | Some inverse =>
                Ok (Some (mkInverse inverseType inverseName (rel_kind inverse)))
            | None => TypeError
            end
        | None =>
            let possibleRelationships :=
              findPossibleInverses this inverseType [] in
            if (length possibleRelationships =? 0)%nat then Ok None
            else
              _ <- assert ("You defined the '" ++ name ++ "' relationship on "
                             ++ toString this
                             ++ ", but multiple possible inverse relationships of type "
                             ++ toString this ++ " were found on "
                             ++ toString inverseType
                             ++ ". Look at http://emberjs.com/guides/models/defining-models/#toc_explicit-inverses for how to explicitly specify inverses")
                          (length possibleRelationships =? 1)%nat ;;
              match possibleRelationships with
              | first :: _ =>
                  Ok (Some (mkInverse inverseType (ent_name first)
                                      (ent_kind first)))
              | [] => TypeError
              end
        end
  end.

End Store.
End Ext.

(** ** JSON values and records *)

(** JSON payloads as the serializer sees them; an object keeps its members
    in insertion order.  Numbers are the integers record ids are given as. *)
Inductive Json : Type :=
| JUndefined
| JNull
| JBool (b : bool)
| JNumber (z : Z)
| JString (s : string)
| JArray (items : list Json)
| JObject (members : list (string * Json)).

(** [object[key]]: [undefined] for an absent member. *)
Definition jsonGet (object : list (string * Json)) (key : string) : Json :=
  match EmberMap.get String.eqb object key with
  | Some v => v
  | None => JUndefined
  end.

(** [object[key] = value]. *)
Definition jsonSet (object : list (string * Json)) (key : string)
    (value : Json) : list (string * Json) :=
  EmberMap.set String.eqb object key value.

(** [value[key]] on any JSON value: [undefined] unless it is an object
    holding the member. *)
Definition member (value : Json) (key : string) : Json :=
  match value with
  | JObject object => jsonGet object key
  | _ => JUndefined
  end.

(** A record in memory: its class ([record.constructor]), its id (a string,
    or [null]) and the values of its attributes and relationships. *)
Inductive DSRecord : Type :=
| mkRecord (class : ModelClass) (id : Json)
           (data : list (string * Property))
with Property : Type :=
| AttributeValue (value : Json)
| BelongsToValue (record : option DSRecord)
| HasManyValue (records : list DSRecord).

Definition record_class (r : DSRecord) : ModelClass :=
  match r with mkRecord class _ _ => class end.

Definition record_id (r : DSRecord) : Json :=
  match r with mkRecord _ id _ => id end.

Definition record_data (r : DSRecord) : list (string * Property) :=
  match r with mkRecord _ _ data => data end.

(** [get(record, key)] for an attribute: [undefined] when not set. *)
Definition attributeOf (record : DSRecord) (key : string) : Json :=
  match EmberMap.get String.eqb (record_data record) key with
  | Some (AttributeValue v) => v
  | _ => JUndefined
  end.

(** [get(record, key)] for a belongs-to relationship: [None] is [null]. *)
Definition belongsToOf (record : DSRecord) (key : string) : option DSRecord :=
  match EmberMap.get String.eqb (record_data record) key with
  | Some (BelongsToValue r) => r
  | _ => None
  end.

(** [get(record, key)] for a has-many relationship. *)
Definition hasManyOf (record : DSRecord) (key : string) : list DSRecord :=
  match EmberMap.get String.eqb (record_data record) key with
  | Some (HasManyValue rs) => rs
  | _ => []
  end.


(** ** The JSON serializer *)

Module JSONSerializer.

(** Modelled from the spec: [DS.JSONSerializer] is not part of the sources,
    only its integration tests are.  The configuration hooks are the ones the
    spec names ([attrs], [primaryKey], [keyForAttribute],
    [keyForRelationship], [normalizePayload]) and the
    [serializePolymorphicType] hook of the test suite, which may throw. *)
Record Hooks : Type := mkHooks {
  primaryKey : string;
  attrs : list (string * string);
  keyForAttribute : string -> string;
  keyForRelationship : string -> Kind -> string;
  normalizePayload : Json -> Json;
  serializePolymorphicType :
    DSRecord -> list (string * Json) -> Relationship
    -> Result (list (string * Json))
}.

(** Modelled from the spec: the serializer without overrides; keys map to
    themselves, the primary key is [id], the payload is taken as it is and
    no type information is added. *)
Definition default : Hooks :=
  mkHooks "id" [] (fun key => key) (fun key _ => key) (fun payload => payload)
          (fun _ json _ => Ok json).

(** Modelled from the spec: the payload key of an attribute is the one the
    [attrs] hash gives it, else [keyForAttribute] of its name. *)
Definition payloadKeyForAttribute (this : Hooks) (key : string) : string :=
  match EmberMap.get String.eqb (attrs this) key with
  | Some payloadKey => payloadKey
  | None => keyForAttribute this key
  end.

(** Modelled from the spec: [serializeAttribute(record, json, key,
    attribute)] writes the attribute's value under its payload key. *)
Definition serializeAttribute (this : Hooks) (record : DSRecord)
    (json : list (string * Json)) (key : string) (attribute : Meta)
  : list (string * Json) :=
  let value := attributeOf record key in
  let key := payloadKeyForAttribute this key in
  jsonSet json key value.

(** Modelled from the spec: [serializeBelongsTo(record, json, relationship)]
    writes the related record's id (or [null]) under
    [keyForRelationship(key)], then calls [serializePolymorphicType] when the
    relationship's options say [polymorphic: true]; what the hook throws is
    thrown on. *)
Definition serializeBelongsTo (this : Hooks) (record : DSRecord)
    (json : list (string * Json)) (relationship : Relationship)
  : Result (list (string * Json)) :=
  let key := rel_key relationship in
  let belongsTo := belongsToOf record key in
  let key := keyForRelationship this key BelongsTo in
  let json :=
    match belongsTo with
    | None => jsonSet json key JNull
    | Some related => jsonSet json key (record_id related)
    end in
  if opt_polymorphic (rel_options relationship) then
    serializePolymorphicType this record json relationship
  else Ok json.

(** Modelled from the spec: [serializeHasMany(record, json, relationship)]
    writes the ids of the related records under [keyForRelationship(key)]. *)
Definition serializeHasMany (this : Hooks) (record : DSRecord)
    (json : list (string * Json)) (relationship : Relationship)
  : list (string * Json) :=
  let key := rel_key relationship in
  let payloadKey := keyForRelationship this key HasMany in
  jsonSet json payloadKey (JArray (map record_id (hasManyOf record key))).

(** Modelled from the spec: [eachAttribute] of [attributes.js] enumerates
    the computed properties whose metadata has [isAttribute]. *)
Definition eachAttribute {S : Type} (type : ModelClass)
    (callback : S -> string -> Meta -> S) (init : S) : S :=
  eachComputedProperty type
    (fun acc name meta => if isAttribute meta then callback acc name meta
                          else acc)
    init.

Section Store.
Variable typeForRelationshipMeta : Meta -> option ModelClass.

(** [eachRelationship(callback)] of ext.js. *)
Definition eachRelationship {S : Type} (type : ModelClass)
    (callback : S -> string -> Relationship -> S) (init : S) : S :=
  fold_left (fun acc entry => callback acc (fst entry) (snd entry))
            (Ext.relationshipsByName typeForRelationshipMeta type) init.

(** Modelled from the spec: [serialize(record, options)] starts from an empty
    object, writes the id under [primaryKey] when [includeId] is set, then
    serializes every attribute and every relationship of the record. *)
Definition serialize (this : Hooks) (record : DSRecord) (includeId : bool)
  : Result (list (string * Json)) :=
  let json := [] in
  let json :=
    if includeId then jsonSet json (primaryKey this) (record_id record)
    else json in
  let json :=
    eachAttribute (record_class record)
      (fun json key attribute =>
         serializeAttribute this record json key attribute)
      json in
  eachRelationship (record_class record)
    (fun result key relationship =>
       json <- result ;;
       match rel_kind relationship with
       | BelongsTo => serializeBelongsTo this record json relationship
       | HasMany => Ok (serializeHasMany this record json relationship)
       end)
    (Ok json).

(** Modelled from the spec: [normalize(type, hash)] reads the id from
    [primaryKey], every attribute from its payload key and every
    relationship from [keyForRelationship] of its name, each as it is in
    the payload, into an object keyed by [id] and the names of the model. *)
Definition normalize (this : Hooks) (type : ModelClass)
    (hash : list (string * Json)) : list (string * Json) :=
  let data := jsonSet [] "id" (jsonGet hash (primaryKey this)) in
  let data :=
    eachAttribute type
      (fun data key _ =>
         jsonSet data key (jsonGet hash (payloadKeyForAttribute this key)))
      data in
  eachRelationship type
    (fun data key relationship =>
       jsonSet data key
         (jsonGet hash (keyForRelationship this key (rel_kind relationship))))
    data.

(** Modelled from the spec: [extractSingle(store, type, payload)] applies
    [normalizePayload] and normalizes what it returns; a value that is not an
    object is handed back unchanged. *)
Definition extractSingle (this : Hooks) (type : ModelClass) (payload : Json)
  : Json :=
  let payload := normalizePayload this payload in
  match payload with
  | JObject hash => JObject (normalize this type hash)
  | other => other
  end.

End Store.
End JSONSerializer.

(** ** relationships/ext.js: the iterators *)

Module ExtEach.
Section Store.
Variable typeForRelationshipMeta : Meta -> option ModelClass.

(** The class method [eachRelationship(callback, binding)]:
    [relationshipsByName.forEach], with the state the callback updates. *)
Definition eachRelationship {S : Type} (this : ModelClass)
    (callback : S -> string -> Relationship -> S) (init : S) : S :=
  fold_left (fun acc entry => callback acc (fst entry) (snd entry))
            (Ext.relationshipsByName typeForRelationshipMeta this) init.

(** The class method [eachRelatedType(callback, binding)]:
    [relatedTypes.forEach]; computing [relatedTypes] may abort. *)
Definition eachRelatedType {S : Type} (this : ModelClass)
    (callback : S -> option ModelClass -> S) (init : S) : Result S :=
  types <- Ext.relatedTypes typeForRelationshipMeta this ;;
  Ok (fold_left callback types init).

(** The instance method [eachRelationship(callback, binding)]:
    [this.constructor.eachRelationship(callback, binding)]. *)
Definition eachRelationshipOfRecord {S : Type} (this : DSRecord)
    (callback : S -> string -> Relationship -> S) (init : S) : S :=
  eachRelationship (record_class this) callback init.

End Store.
End ExtEach.

(** ** relationships/ext.js: the [didDefineProperty] hook *)

Module ModelHooks.

(** The value being defined: a computed property, with the metadata it was
    given if any, or anything else.  For a computed property without
    metadata [value.meta()] answers a fresh empty object each time. *)
Inductive PropertyValue : Type :=
| ComputedProperty (meta : option Meta)
| OtherValue.

(** A prototype as the hook sees it: the text of [proto.constructor] and the
    observers and before-observers registered on it, each a key and the
    name of the method to call. *)
Record Prototype : Type := mkPrototype {
  proto_constructor : string;
  proto_observers : list (string * string);
  proto_beforeObservers : list (string * string)
}.

Definition addObserver (proto : Prototype) (key method : string) : Prototype :=
  mkPrototype (proto_constructor proto)
              (proto_observers proto ++ [(key, method)])%list
              (proto_beforeObservers proto).

Definition addBeforeObserver (proto : Prototype) (key method : string)
  : Prototype :=
  mkPrototype (proto_constructor proto) (proto_observers proto)
              (proto_beforeObservers proto ++ [(key, method)])%list.

Definition setParentType (parentType : string) (meta : Meta) : Meta :=
  mkMeta (isRelationship meta) (isAttribute meta) (meta_kind meta)
         (meta_type meta) (meta_options meta) parentType (meta_key meta).

(** [meta.kind === 'belongsTo']. *)
Definition isBelongsTo (kind : Kind) : bool :=
  match kind with
  | BelongsTo => true
  | HasMany => false
  end.

(** [didDefineProperty(proto, key, value)]: the prototype and the value
    after the call.  On a computed property without metadata the flags read
    from the empty object are [undefined] and the assignment of
    [parentType] to that object is lost. *)
Definition didDefineProperty (proto : Prototype) (key : string)
    (value : PropertyValue) : Prototype * PropertyValue :=
  match value with
  | ComputedProperty (Some meta) =>
      let proto' :=
        if isRelationship meta && isBelongsTo (meta_kind meta) then
          let proto := addObserver proto key "belongsToDidChange" in
          addBeforeObserver proto key "belongsToWillChange"
        else proto in
      (proto',
       ComputedProperty (Some (setParentType (proto_constructor proto) meta)))
  | ComputedProperty None => (proto, ComputedProperty None)
  | OtherValue => (proto, OtherValue)
  end.

(** Defining the properties of a class one after the other, the hook being
    called for each, as its documentation describes for
    [DS.Model.extend({ ... })]: the prototype and the values in the end. *)
Fixpoint defineProperties (proto : Prototype)
    (definitions : list (string * PropertyValue))
  : Prototype * list (string * PropertyValue) :=
  match definitions with
  | [] => (proto, [])
  | (key, value) :: rest =>
      let (proto, value) := didDefineProperty proto key value in
      let (proto, values) := defineProperties proto rest in
      (proto, (key, value) :: values)
  end.

(** The metadata [eachComputedProperty] passes for a computed property
    without metadata: an empty object, on which neither flag is set (the
    other fields are never read then). *)
Definition emptyMeta : Meta :=
  mkMeta false false HasMany "" (mkOptions InverseUndefined false) "" "".

(** What [eachComputedProperty] enumerates for a class with these values:
    the computed ones, each with its metadata or the empty object. *)
Fixpoint computedPropertiesOf (values : list (string * PropertyValue))
  : list (string * Meta) :=
  match values with
  | [] => []
  | (key, ComputedProperty (Some meta)) :: rest =>
      (key, meta) :: computedPropertiesOf rest
  | (key, ComputedProperty None) :: rest =>
      (key, emptyMeta) :: computedPropertiesOf rest
  | (key, OtherValue) :: rest => computedPropertiesOf rest
  end.

End ModelHooks.

(** ** The classes of the serializer test suite

    [Post] and [Comment] as the suite's [setup] defines them, over the base
    class, and a store that resolves a relationship's declared type among the
    registered classes. *)

Definition noOptions : Options := mkOptions InverseUndefined false.

Definition attr (type parentType : string) : Meta :=
  mkMeta false true HasMany type noOptions parentType "".

Definition hasMany (type : string) (options : Options) (parentType : string)
  : Meta :=
  mkMeta true false HasMany type options parentType "".

Definition belongsTo (type : string) (options : Options) (parentType : string)
  : Meta :=
  mkMeta true false BelongsTo type options parentType "".

Definition Model : ModelClass := mkClass "" "DS.Model" None [].

Definition Post : ModelClass :=
  mkClass "post" "App.Post" (Some Model)
    [ ("title", attr "string" "App.Post");
      ("comments",
       hasMany "comment" (mkOptions InverseNull false) "App.Post") ].

Definition Comment : ModelClass :=
  mkClass "comment" "App.Comment" (Some Model)
    [ ("body", attr "string" "App.Comment");
      ("post", belongsTo "post" noOptions "App.Comment") ].

Fixpoint modelFor (registry : list ModelClass) (key : string)
  : option ModelClass :=
  match registry with
  | [] => None
  | c :: rest => if typeKey c =? key then Some c else modelFor rest key
  end.

Definition storeOf (registry : list ModelClass) (meta : Meta)
  : option ModelClass :=
  modelFor registry (meta_type meta).

Definition testStore : Meta -> option ModelClass := storeOf [Post; Comment].

(** ** The serializers and records of the test suite *)

Definition upperChar (c : Ascii.ascii) : Ascii.ascii :=
  let n := Ascii.nat_of_ascii c in
  if ((97 <=? n) && (n <=? 122))%nat then Ascii.ascii_of_nat (n - 32) else c.

(** [key.toUpperCase()] on ASCII names. *)
Fixpoint toUpperCase (s : string) : string :=
  match s with
  | EmptyString => EmptyString
  | String c rest => String (upperChar c) (toUpperCase rest)
  end.

Definition withKeyForAttribute (f : string -> string)
  : JSONSerializer.Hooks :=
  JSONSerializer.mkHooks "id" [] f (fun key _ => key) (fun payload => payload)
    (fun _ json _ => Ok json).

Definition withKeyForRelationship (f : string -> Kind -> string)
  : JSONSerializer.Hooks :=
  JSONSerializer.mkHooks "id" [] (fun key => key) f (fun payload => payload)
    (fun _ json _ => Ok json).

Definition upperCaseKeys : JSONSerializer.Hooks :=
  JSONSerializer.mkHooks "id" [] toUpperCase (fun key _ => toUpperCase key)
    (fun payload => payload) (fun _ json _ => Ok json).

Definition withAttrs (attrs : list (string * string)) : JSONSerializer.Hooks :=
  JSONSerializer.mkHooks "id" attrs (fun key => key) (fun key _ => key)
    (fun payload => payload) (fun _ json _ => Ok json).

Definition withPrimaryKey (primaryKey : string) : JSONSerializer.Hooks :=
  JSONSerializer.mkHooks primaryKey [] (fun key => key) (fun key _ => key)
    (fun payload => payload) (fun _ json _ => Ok json).

Definition withNormalizePayload (f : Json -> Json) : JSONSerializer.Hooks :=
  JSONSerializer.mkHooks "id" [] (fun key => key) (fun key _ => key) f
    (fun _ json _ => Ok json).

(** The hook of the suite: [json[relationship.key + "TYPE"] =
    belongsTo.constructor.typeKey]; with no related record,
    [belongsTo.constructor] throws. *)
Definition typeKeyHook (record : DSRecord) (json : list (string * Json))
    (relationship : Relationship) : Result (list (string * Json)) :=
  let key := rel_key relationship in
  match belongsToOf record key with
  | Some belongsTo =>
      Ok (jsonSet json (key ++ "TYPE")
            (JString (typeKey (record_class belongsTo))))
  | None => TypeError
  end.

Definition withSerializePolymorphicType
    (f : DSRecord -> list (string * Json) -> Relationship
         -> Result (list (string * Json))) : JSONSerializer.Hooks :=
  JSONSerializer.mkHooks "id" [] (fun key => key) (fun key _ => key)
    (fun payload => payload) f.

Definition railsPost (id : Json) (comments : list DSRecord) : DSRecord :=
  mkRecord Post id
    [ ("title", AttributeValue (JString "Rails is omakase"));
      ("comments", HasManyValue comments) ].

Definition omakaseComment (id : Json) (post : option DSRecord) : DSRecord :=
  mkRecord Comment id
    [ ("body", AttributeValue (JString "Omakase is delicious"));
      ("post", BelongsToValue post) ].

(** A class whose relationship names an inverse that targets another
    class. *)
Definition User : ModelClass := mkClass "user" "App.User" (Some Model) [].

Definition Note : ModelClass :=
  mkClass "note" "App.Note" (Some Model)
    [ ("author", belongsTo "user" noOptions "App.Note") ].

Definition Blog : ModelClass :=
  mkClass "blog" "App.Blog" (Some Model)
    [ ("notes",
       hasMany "note" (mkOptions (InverseName "author") false) "App.Blog") ].

Definition blogStore : Meta -> option ModelClass :=
  storeOf [User; Note; Blog].

(** Classes with an unresolved type, with several candidate inverses and
    with a named inverse the related class does not define. *)
Definition Orphan : ModelClass :=
  mkClass "orphan" "App.Orphan" (Some Model)
    [ ("name", attr "string" "App.Orphan");
      ("parent", belongsTo "ghost" noOptions "App.Orphan") ].

Definition Author : ModelClass :=
  mkClass "author" "App.Author" (Some Model)
    [ ("books", hasMany "book" noOptions "App.Author") ].

Definition Book : ModelClass :=
  mkClass "book" "App.Book" (Some Model)
    [ ("author", belongsTo "author" noOptions "App.Book");
      ("editor", belongsTo "author" noOptions "App.Book");
      ("owner",
       belongsTo "author" (mkOptions (InverseName "library") false)
         "App.Book") ].

Definition libraryStore : Meta -> option ModelClass :=
  storeOf [Author; Book].

(** The superclass chain of a class, the class first. *)
Fixpoint ancestry (c : ModelClass) : list ModelClass :=
  c :: match c with
       | mkClass _ _ (Some super) _ => ancestry super
       | mkClass _ _ None _ => []
       end.

(** [name] is a relationship among the computed properties of [c]. *)
Definition definesRelationship (c : ModelClass) (name : string) : Prop :=
  exists meta, In (name, meta) (computedProperties c)
               /\ isRelationship meta = true.

(** ** Vocabulary for the introspection properties *)

Module ExtSpec.

(** The kind [fields] stores for a property. *)
Definition fieldKindOf (p : string * Meta) : option string :=
  if isRelationship (snd p) then Some (kindName (meta_kind (snd p)))
  else if isAttribute (snd p) then Some "attribute"
  else None.

(** The message of the first assertion of [relatedTypes] for a property. *)
Definition notFoundMessage (meta : Meta) : string :=
  "You specified a hasMany (" ++ meta_type meta ++ ") on "
    ++ meta_parentType meta ++ " but " ++ meta_type meta ++ " was not found.".

(** The relationship properties of a given kind, by name. *)
Definition namesOfKind (kind : Kind) (l : list (string * Meta)) : list string :=
  map fst (filter (fun p => isRelationship (snd p)
                            && if Kind_eq_dec (meta_kind (snd p)) kind
                               then true else false) l).

Section Store.
Variable typeForRelationshipMeta : Meta -> option ModelClass.

(** The descriptor [relationshipsByName] stores for a property. *)
Definition descriptorOf (p : string * Meta) : option Relationship :=
  if isRelationship (snd p) then
    Some (mkRelationship (fst p) (meta_kind (snd p))
            (typeForRelationshipMeta (setKey (fst p) (snd p)))
            (meta_options (snd p)))
  else None.

(** [name] is a relationship of kind [kind] among the computed properties of
    [c], and its type resolves to [target]. *)
Definition relationshipOn (c : ModelClass) (name : string) (kind : Kind)
    (target : option ModelClass) : Prop :=
  exists meta,
    In (name, meta) (computedProperties c)
    /\ isRelationship meta = true
    /\ meta_kind meta = kind
    /\ typeForRelationshipMeta (setKey name meta) = target.

(** The entries of [relationships] under the key [type], in order. *)
Definition entriesFor (l : list (string * Meta)) (type : option ModelClass)
  : list RelationshipEntry :=
  map (fun p => mkEntry (fst p) (meta_kind (snd p)))
      (filter (fun p =>
                 isRelationship (snd p)
                 && sameType (typeForRelationshipMeta (setKey (fst p) (snd p)))
                             type)
              l).

(** One round of the loop of [relatedTypes], on the types collected so
    far. *)
Definition relatedTypesStep (this : ModelClass)
    (types : list (option ModelClass)) (p : string * Meta)
  : Result (list (option ModelClass)) :=
  if isRelationship (snd p) then
    match typeForRelationshipMeta (setKey (fst p) (snd p)) with
    | None => AssertionFailed (notFoundMessage (snd p))
    | Some t =>
        if Ext.contains types (Some t) then Ok types
        else Ok (types ++ [Some t])%list
    end
  else Ok types.

End Store.
End ExtSpec.

(** ** Vocabulary for the serializer *)

Module SerializerSpec.

(** [name] is an attribute, and only that, of [type], whose properties have
    distinct names. *)
Definition attributeOfType (type : ModelClass) (name : string) : Prop :=
  NoDup (map fst (computedProperties type))
  /\ exists meta, In (name, meta) (computedProperties type)
                  /\ isAttribute meta = true /\ isRelationship meta = false.

(** [name] is a relationship of kind [kind] of [type], whose properties have
    distinct names. *)
Definition relationshipOfType (type : ModelClass) (name : string)
    (kind : Kind) : Prop :=
  NoDup (map fst (computedProperties type))
  /\ exists meta, In (name, meta) (computedProperties type)
                  /\ isRelationship meta = true /\ meta_kind meta = kind.

(** No attribute of [type] but [name] is serialized under [payloadKey]. *)
Definition onlyAttributeUnder (this : JSONSerializer.Hooks)
    (type : ModelClass) (name payloadKey : string) : Prop :=
  forall name' meta',
    In (name', meta') (computedProperties type) ->
    isAttribute meta' = true ->
    JSONSerializer.payloadKeyForAttribute this name' = payloadKey ->
    name' = name.

(** No computed property named [name] is an attribute or a relationship. *)
Definition noFieldNamed (type : ModelClass) (name : string) : Prop :=
  forall meta, In (name, meta) (computedProperties type) ->
               isAttribute meta = false /\ isRelationship meta = false.

(** No attribute of [type] is serialized under [key]. *)
Definition attributesAvoid (this : JSONSerializer.Hooks) (type : ModelClass)
    (key : string) : Prop :=
  forall name meta,
    In (name, meta) (computedProperties type) ->
    isAttribute meta = true ->
    JSONSerializer.payloadKeyForAttribute this name <> key.

(** What [serializeBelongsTo] writes for the relationship [key]: the id of
    the related record, or [null]. *)
Definition relatedId (record : DSRecord) (key : string) : Json :=
  match belongsToOf record key with
  | Some related => record_id related
  | None => JNull
  end.

Section Store.
Variable typeForRelationshipMeta : Meta -> option ModelClass.

(** Serializing a relationship of the record's class returns, and leaves
    the member [key] alone. *)
Definition relationshipsAvoid (this : JSONSerializer.Hooks)
    (record : DSRecord) (key : string) : Prop :=
  forall name relationship json,
    In (name, relationship) (Ext.relationshipsByName typeForRelationshipMeta
                               (record_class record)) ->
    exists json',
      match rel_kind relationship with
      | BelongsTo =>
          JSONSerializer.serializeBelongsTo this record json relationship
      | HasMany =>
          Ok (JSONSerializer.serializeHasMany this record json relationship)
      end = Ok json'
      /\ jsonGet json' key = jsonGet json key.

End Store.
End SerializerSpec.

(** ** Lemmas on [Ember.Map] *)

Section MapFacts.
Context {K V : Type} (eqb : K -> K -> bool).
Hypothesis eqb_spec : forall a b, eqb a b = true <-> a = b.

Lemma eqb_same : forall a, eqb a a = true.
Proof. intro a. apply eqb_spec. reflexivity. Qed.

Lemma eqb_other : forall a b, a <> b -> eqb a b = false.
Proof.
  intros a b ne. destruct (eqb a b) eqn:E; [ | reflexivity ].
  apply eqb_spec in E. contradiction.
Qed.

Lemma get_set_same : forall (m : list (K * V)) k v,
    EmberMap.get eqb (EmberMap.set eqb m k v) k = Some v.
Proof.
  induction m as [ | [k' v'] rest IH ]; intros k v; simpl.
  - rewrite eqb_same. reflexivity.
  - destruct (eqb k' k) eqn:E; simpl; rewrite E; [ reflexivity | apply IH ].
Qed.

Lemma get_set_other : forall (m : list (K * V)) k k' v,
    k <> k' ->
    EmberMap.get eqb (EmberMap.set eqb m k v) k' = EmberMap.get eqb m k'.
Proof.
  induction m as [ | [k0 v0] rest IH ]; intros k k' v ne; simpl.
  - rewrite (eqb_other _ _ ne). reflexivity.
  - destruct (eqb k0 k) eqn:E; simpl.
    + apply eqb_spec in E. subst k0. rewrite (eqb_other _ _ ne). reflexivity.
    + destruct (eqb k0 k'); [ reflexivity | apply IH; assumption ].
Qed.

Lemma get_None_keys : forall (m : list (K * V)) k,
    EmberMap.get eqb m k = None <-> ~ In k (EmberMap.keys m).
Proof.
  induction m as [ | [k0 v0] rest IH ]; intro k; simpl.
  - split; [ intros _ [] | reflexivity ].
  - destruct (eqb k0 k) eqn:E.
    + apply eqb_spec in E. split; [ discriminate | intro H; exfalso; auto ].
    + rewrite IH. split.
      * intros H [e | i]; [ | auto ].
        subst k0. rewrite eqb_same in E. discriminate.
      * intros H i. apply H. right. exact i.
Qed.

Lemma get_Some_keys : forall (m : list (K * V)) k,
    In k (EmberMap.keys m) <-> exists v, EmberMap.get eqb m k = Some v.
Proof.
  induction m as [ | [k0 v0] rest IH ]; intro k; simpl.
  - split; [ intros [] | intros [v H]; discriminate ].
  - destruct (eqb k0 k) eqn:E.
    + apply eqb_spec in E. split; [ intros _; exists v0; reflexivity | auto ].
    + rewrite <- IH. split; [ intros [e | i] | auto ].
      * subst k0. rewrite eqb_same in E. discriminate.
      * exact i.
Qed.

Lemma get_writes : forall (P : Type) (key : P -> K) (value : P -> option V)
    (l : list P) (m : list (K * V)) k,
    EmberMap.get eqb (EmberMap.writes eqb key value l m) k
    = EmberMap.lastWrite eqb key value l k (EmberMap.get eqb m k).
Proof.
  intros P key value. unfold EmberMap.writes.
  induction l as [ | p rest IH ]; intros m k; simpl.
  - reflexivity.
  - rewrite IH. f_equal.
    destruct (value p) as [v | ]; [ | reflexivity ].
    destruct (eqb (key p) k) eqn:E.
    + apply eqb_spec in E. subst k. apply get_set_same.
    + apply get_set_other. intro e. rewrite e, eqb_same in E. discriminate.
Qed.

Lemma lastWrite_none : forall (P : Type) (key : P -> K)
    (value : P -> option V) (l : list P) k found,
    (forall p, In p l -> key p = k -> value p = None) ->
    EmberMap.lastWrite eqb key value l k found = found.
Proof.
  intros P key value. induction l as [ | p rest IH ]; intros k found H; simpl.
  - reflexivity.
  - rewrite IH by (intros q i; apply H; right; exact i).
    destruct (value p) as [v | ] eqn:Ev; [ | reflexivity ].
    destruct (eqb (key p) k) eqn:E; [ | reflexivity ].
    apply eqb_spec in E. rewrite (H p (or_introl eq_refl) E) in Ev.
    discriminate.
Qed.

Lemma lastWrite_unique : forall (P : Type) (key : P -> K)
    (value : P -> option V) (l : list P) k p v found,
    NoDup (map key l) -> In p l -> key p = k -> value p = Some v ->
    EmberMap.lastWrite eqb key value l k found = Some v.
Proof.
  intros P key value. induction l as [ | q rest IH ];
    intros k p v found nd i Ek Ev; simpl.
  - destruct i.
  - inversion nd as [ | ? ? notin nd' ]; subst. destruct i as [-> | i].
    + rewrite Ev, eqb_same. apply lastWrite_none.
      intros r ir e. exfalso. apply notin. rewrite <- e.
      apply in_map. exact ir.
    + apply (IH (key p) p v _ nd' i eq_refl Ev).
Qed.

Lemma lastWrite_found : forall (P : Type) (key : P -> K)
    (value : P -> option V) (l : list P) k found v,
    EmberMap.lastWrite eqb key value l k found = Some v ->
    found = Some v
    \/ exists p, In p l /\ key p = k /\ value p = Some v.
Proof.
  intros P key value. induction l as [ | q rest IH ];
    intros k found v H; simpl in H.
  - left. exact H.
  - apply IH in H. destruct H as [H | [p [i [e Ev]]]].
    + destruct (value q) as [w | ] eqn:Ew; [ | left; exact H ].
      destruct (eqb (key q) k) eqn:E; [ | left; exact H ].
      right. exists q. apply eqb_spec in E.
      split; [ left; reflexivity | split; [ exact E | congruence ] ].
    + right. exists p. split; [ right; exact i | split; assumption ].
Qed.

Lemma lastWrite_kept : forall (P : Type) (key : P -> K)
    (value : P -> option V) (l : list P) k v,
    exists v', EmberMap.lastWrite eqb key value l k (Some v) = Some v'.
Proof.
  intros P key value. induction l as [ | q rest IH ]; intros k v; simpl.
  - exists v. reflexivity.
  - destruct (value q) as [w | ]; [ | apply IH ].
    destruct (eqb (key q) k); apply IH.
Qed.

Lemma lastWrite_defined : forall (P : Type) (key : P -> K)
    (value : P -> option V) (l : list P) p v found,
    In p l -> value p = Some v ->
    exists v', EmberMap.lastWrite eqb key value l (key p) found = Some v'.
Proof.
  intros P key value. induction l as [ | q rest IH ];
    intros p v found i Ev; simpl.
  - destruct i.
  - destruct i as [-> | i].
    + rewrite Ev, eqb_same. apply lastWrite_kept.
    + apply (IH p v _ i Ev).
Qed.

Lemma lastWrite_stays : forall (P : Type) (key : P -> K)
    (value : P -> option V) (l : list P) k v,
    (forall q, In q l -> key q = k -> value q = Some v \/ value q = None) ->
    EmberMap.lastWrite eqb key value l k (Some v) = Some v.
Proof.
  intros P key value. induction l as [ | r l IHl ]; intros k v Hl; simpl.
  - reflexivity.
  - assert (match value r with
            | Some w => if eqb (key r) k then Some w else Some v
            | None => Some v
            end = Some v) as ->.
    { destruct (value r) as [w | ] eqn:Er; [ | reflexivity ].
      destruct (eqb (key r) k) eqn:E; [ | reflexivity ].
      apply eqb_spec in E.
      destruct (Hl r (or_introl eq_refl) E) as [e | e]; congruence. }
    apply IHl. intros q iq. apply Hl. right. exact iq.
Qed.

Lemma lastWrite_agree : forall (P : Type) (key : P -> K)
    (value : P -> option V) (l : list P) k p v found,
    In p l -> value p = Some v -> key p = k ->
    (forall q, In q l -> key q = k -> value q = Some v \/ value q = None) ->
    EmberMap.lastWrite eqb key value l k found = Some v.
Proof.
  intros P key value. induction l as [ | q rest IH ];
    intros k p v found i Ev Ek H; simpl.
  - destruct i.
  - destruct i as [-> | i].
    + rewrite Ev, Ek, eqb_same. apply lastWrite_stays.
      intros q iq. apply H. right. exact iq.
    + apply (IH k p v _ i Ev Ek). intros r ir. apply H. right. exact ir.
Qed.

End MapFacts.

Lemma fold_left_pointwise : forall (A B : Type) (f g : A -> B -> A) l a,
    (forall x y, f x y = g x y) -> fold_left f l a = fold_left g l a.
Proof.
  intros A B f g. induction l as [ | y rest IH ]; intros a H; simpl.
  - reflexivity.
  - rewrite H. apply IH. exact H.
Qed.

Lemma string_eqb_spec : forall a b : string, (a =? b) = true <-> a = b.
Proof. intros a b. apply String.eqb_eq. Qed.

Lemma sameClass_spec : forall a b, sameClass a b = true <-> a = b.
Proof.
  intros a b. unfold sameClass.
  destruct (Class_eq_dec a b); split; congruence.
Qed.

Lemma sameType_spec : forall a b, sameType a b = true <-> a = b.
Proof.
  intros [a | ] [b | ]; simpl.
  - rewrite sameClass_spec. split; congruence.
  - split; discriminate.
  - split; discriminate.
  - split; reflexivity.
Qed.

Lemma in_ancestry_self : forall c, In c (ancestry c).
Proof. intros [k s sup p]. simpl. left. reflexivity. Qed.

(** ** Facts on the introspection properties *)

Section StoreFacts.
Variable typeForRelationshipMeta : Meta -> option ModelClass.

#[local] Abbreviation relationshipsByName :=
  (Ext.relationshipsByName typeForRelationshipMeta).
#[local] Abbreviation relationships :=
  (Ext.relationships typeForRelationshipMeta).
#[local] Abbreviation typeForRelationship :=
  (Ext.typeForRelationship typeForRelationshipMeta).
#[local] Abbreviation inverseFor :=
  (Ext.inverseFor typeForRelationshipMeta).
#[local] Abbreviation findPossibleInverses :=
  (Ext.findPossibleInverses typeForRelationshipMeta).
#[local] Abbreviation relatedTypes :=
  (Ext.relatedTypes typeForRelationshipMeta).
#[local] Abbreviation descriptorOf :=
  (ExtSpec.descriptorOf typeForRelationshipMeta).
#[local] Abbreviation relationshipOn :=
  (ExtSpec.relationshipOn typeForRelationshipMeta).
#[local] Abbreviation entriesFor :=
  (ExtSpec.entriesFor typeForRelationshipMeta).
#[local] Abbreviation relatedTypesStep :=
  (ExtSpec.relatedTypesStep typeForRelationshipMeta).
#[local] Abbreviation fieldKindOf := ExtSpec.fieldKindOf.
#[local] Abbreviation notFoundMessage := ExtSpec.notFoundMessage.
#[local] Abbreviation namesOfKind := ExtSpec.namesOfKind.

Lemma relationshipsByName_writes : forall c,
    relationshipsByName c
    = EmberMap.writes String.eqb fst descriptorOf (computedProperties c) [].
Proof.
  intro c. unfold Ext.relationshipsByName, eachComputedProperty,
    EmberMap.writes.
  apply fold_left_pointwise. intros m [name meta]. unfold ExtSpec.descriptorOf. simpl.
  destruct (isRelationship meta); reflexivity.
Qed.

Lemma fields_writes : forall c,
    Ext.fields c
    = EmberMap.writes String.eqb fst fieldKindOf (computedProperties c) [].
Proof.
  intro c. unfold Ext.fields, eachComputedProperty, EmberMap.writes.
  apply fold_left_pointwise. intros m [name meta]. unfold ExtSpec.fieldKindOf. simpl.
  destruct (isRelationship meta); [ reflexivity | ].
  destruct (isAttribute meta); reflexivity.
Qed.

Lemma descriptorOf_Some : forall p r,
    descriptorOf p = Some r ->
    isRelationship (snd p) = true /\ rel_key r = fst p
    /\ rel_kind r = meta_kind (snd p)
    /\ rel_type r = typeForRelationshipMeta (setKey (fst p) (snd p))
    /\ rel_options r = meta_options (snd p).
Proof.
  intros p r. unfold ExtSpec.descriptorOf.
  destruct (isRelationship (snd p)); [ | discriminate ].
  intro H. injection H as <-. simpl. repeat split.
Qed.

Lemma relationshipsByName_get_Some : forall c name r,
    EmberMap.get String.eqb (relationshipsByName c) name = Some r ->
    exists meta, In (name, meta) (computedProperties c)
                 /\ descriptorOf (name, meta) = Some r.
Proof.
  intros c name r H. rewrite relationshipsByName_writes in H.
  rewrite (get_writes _ string_eqb_spec) in H. simpl in H.
  apply (lastWrite_found _ string_eqb_spec) in H.
  destruct H as [H | [[n meta] [i [e Ev]]]]; [ discriminate | ].
  simpl in e. subst n. exists meta. split; assumption.
Qed.

Lemma relationshipsByName_get_None : forall c name,
    ~ definesRelationship c name ->
    EmberMap.get String.eqb (relationshipsByName c) name = None.
Proof.
  intros c name H.
  destruct (EmberMap.get String.eqb (relationshipsByName c) name)
    as [r | ] eqn:E; [ | reflexivity ].
  apply relationshipsByName_get_Some in E. destruct E as [meta [i Ev]].
  apply descriptorOf_Some in Ev. exfalso. apply H. exists meta.
  split; [ exact i | apply Ev ].
Qed.

Lemma relationshipsByName_get_unique : forall c name meta,
    NoDup (map fst (computedProperties c)) ->
    In (name, meta) (computedProperties c) ->
    EmberMap.get String.eqb (relationshipsByName c) name
    = descriptorOf (name, meta).
Proof.
  intros c name meta nd i. rewrite relationshipsByName_writes.
  rewrite (get_writes _ string_eqb_spec). simpl.
  destruct (descriptorOf (name, meta)) as [r | ] eqn:E.
  - apply (lastWrite_unique _ string_eqb_spec _ fst descriptorOf _ name
             (name, meta) r None nd i eq_refl E).
  - apply (lastWrite_none _ string_eqb_spec).
    intros [n m] iq e. simpl in e. subst n.
    assert (m = meta) as ->; [ | exact E ].
    clear E. revert nd i iq. generalize (computedProperties c).
    induction l as [ | [n0 m0] rest IH ]; intros nd i iq; [ destruct i | ].
    simpl in nd. inversion nd as [ | ? ? notin nd' ]; subst.
    destruct i as [e1 | i], iq as [e2 | iq].
    + congruence.
    + injection e1 as -> ->. exfalso. apply notin.
      change name with (fst (name, m)). apply in_map. exact iq.
    + injection e2 as -> ->. exfalso. apply notin.
      change name with (fst (name, meta)). apply in_map. exact i.
    + apply IH; assumption.
Qed.

Lemma getWithDefault_set : forall (m : list (option ModelClass
                                            * list RelationshipEntry)) k k' v,
    EmberMap.getWithDefault sameType [] (EmberMap.set sameType m k v) k'
    = if sameType k k' then v else EmberMap.getWithDefault sameType [] m k'.
Proof.
  intros m k k' v. unfold EmberMap.getWithDefault.
  destruct (sameType k k') eqn:E.
  - apply sameType_spec in E. subst k'.
    rewrite (get_set_same _ sameType_spec). reflexivity.
  - rewrite (get_set_other _ sameType_spec); [ reflexivity | ].
    intro e. subst k'.
    rewrite (proj2 (sameType_spec k k) eq_refl) in E. discriminate.
Qed.

Lemma relationships_loop : forall l m type,
    EmberMap.getWithDefault sameType []
      (fold_left
         (fun map p =>
            if isRelationship (snd p) then
              EmberMap.set sameType map
                (typeForRelationshipMeta (setKey (fst p) (snd p)))
                (EmberMap.getWithDefault sameType [] map
                   (typeForRelationshipMeta (setKey (fst p) (snd p)))
                   ++ [mkEntry (fst p) (meta_kind (snd p))])%list
            else map)
         l m)
      type
    = (EmberMap.getWithDefault sameType [] m type ++ entriesFor l type)%list.
Proof.
  induction l as [ | [n meta] rest IH ]; intros m type; simpl.
  - unfold ExtSpec.entriesFor. simpl. rewrite app_nil_r. reflexivity.
  - rewrite IH. unfold ExtSpec.entriesFor. simpl.
    destruct (isRelationship meta); simpl; [ | reflexivity ].
    rewrite getWithDefault_set.
    destruct (sameType (typeForRelationshipMeta (setKey n meta)) type) eqn:E.
    + apply sameType_spec in E. subst type. simpl.
      rewrite <- app_assoc. reflexivity.
    + reflexivity.
Qed.

Lemma relationships_get : forall c type,
    EmberMap.getWithDefault sameType [] (relationships c) type
    = entriesFor (computedProperties c) type.
Proof.
  intros c type. unfold Ext.relationships, eachComputedProperty.
  rewrite relationships_loop. reflexivity.
Qed.

Lemma entriesFor_In : forall c type e,
    In e (entriesFor (computedProperties c) type) ->
    relationshipOn c (ent_name e) (ent_kind e) type.
Proof.
  intros c type e H. unfold ExtSpec.entriesFor in H. apply in_map_iff in H.
  destruct H as [[n meta] [<- H]]. apply filter_In in H. destruct H as [i H].
  simpl in H. apply andb_true_iff in H. destruct H as [r t].
  apply sameType_spec in t. exists meta. simpl. auto.
Qed.

Lemma findPossibleInverses_chain : forall type inverseType possible,
    findPossibleInverses type inverseType possible
    = (possible
         ++ flat_map (fun t => entriesFor (computedProperties inverseType)
                                          (Some t))
                     (ancestry type))%list.
Proof.
  fix IH 1. intros [k s [super | ] props] inverseType possible.
  - change (findPossibleInverses (mkClass k s (Some super) props)
                                 inverseType possible)
      with (findPossibleInverses super inverseType
              (possible
                 ++ EmberMap.getWithDefault sameType []
                      (relationships inverseType)
                      (Some (mkClass k s (Some super) props)))%list).
    rewrite IH. rewrite relationships_get. simpl. rewrite <- app_assoc.
    reflexivity.
  - simpl. rewrite relationships_get. rewrite app_nil_r. reflexivity.
Qed.

Lemma findPossibleInverses_In : forall this inverseType e,
    In e (findPossibleInverses this inverseType []) ->
    exists target,
      relationshipOn inverseType (ent_name e) (ent_kind e) (Some target)
      /\ In target (ancestry this).
Proof.
  intros this inverseType e H. rewrite findPossibleInverses_chain in H.
  simpl in H. apply in_flat_map in H. destruct H as [target [i H]].
  exists target. split; [ apply entriesFor_In; exact H | exact i ].
Qed.

Lemma relationshipsByName_defined : forall c name,
    definesRelationship c name ->
    exists r, EmberMap.get String.eqb (relationshipsByName c) name = Some r.
Proof.
  intros c name [meta [i r]]. rewrite relationshipsByName_writes.
  rewrite (get_writes _ string_eqb_spec).
  apply (lastWrite_defined _ string_eqb_spec _ fst descriptorOf _
           (name, meta)
           (mkRelationship name (meta_kind meta)
              (typeForRelationshipMeta (setKey name meta))
              (meta_options meta))).
  - exact i.
  - unfold ExtSpec.descriptorOf. simpl. rewrite r. reflexivity.
Qed.

Lemma inverseFor_descriptor_sound : forall this name d,
    inverseFor this name = Ok (Some d) ->
    typeForRelationship this name = Some (inv_type d)
    /\ exists meta,
        metaForProperty this name = Ok meta
        /\ opt_inverse (meta_options meta) <> InverseNull
        /\ ((namedInverse (opt_inverse (meta_options meta))
             = Some (inv_name d)
             /\ exists target,
                 relationshipOn (inv_type d) (inv_name d) (inv_kind d) target)
            \/ (namedInverse (opt_inverse (meta_options meta)) = None
                /\ findPossibleInverses this (inv_type d) []
                   = [mkEntry (inv_name d) (inv_kind d)]
                /\ exists target,
                    relationshipOn (inv_type d) (inv_name d) (inv_kind d)
                                   (Some target)
                    /\ In target (ancestry this))).
Proof.
  intros this name d H. unfold Ext.inverseFor in H.
  destruct (typeForRelationship this name) as [inverseType | ] eqn:Et;
    [ | discriminate ].
  destruct (metaForProperty this name) as [meta | message | ] eqn:Em;
    try discriminate.
  cbn [bind] in H.
  destruct (isNull (opt_inverse (meta_options meta))) eqn:En;
    [ discriminate | ].
  assert (opt_inverse (meta_options meta) <> InverseNull) as notnull.
  { intro e. rewrite e in En. discriminate. }
  destruct (namedInverse (opt_inverse (meta_options meta)))
    as [inverseName | ] eqn:Ei.
  - destruct (EmberMap.get String.eqb (relationshipsByName inverseType)
                inverseName) as [r | ] eqn:Er; simpl in H; [ | discriminate ].
    injection H as <-. simpl. split; [ reflexivity | ].
    exists meta. split; [ reflexivity | ]. split; [ exact notnull | ].
    left. split; [ exact Ei | ].
    apply relationshipsByName_get_Some in Er. destruct Er as [m [i Ed]].
    apply descriptorOf_Some in Ed. simpl in Ed.
    destruct Ed as [rel [_ [kind [type _]]]].
    exists (rel_type r), m. auto.
  - destruct (findPossibleInverses this inverseType [])
      as [ | e [ | e2 rest ] ] eqn:Ef; simpl in H; try discriminate.
    injection H as <-. simpl. split; [ reflexivity | ].
    exists meta. split; [ reflexivity | ]. split; [ exact notnull | ].
    right. split; [ exact Ei | ].
    split; [ rewrite Ef; destruct e; reflexivity | ].
    apply findPossibleInverses_In. rewrite Ef. left. reflexivity.
Qed.

Lemma inverseFor_null_iff : forall this name,
    inverseFor this name = Ok None
    <-> (typeForRelationship this name = None
         \/ exists inverseType meta,
             typeForRelationship this name = Some inverseType
             /\ metaForProperty this name = Ok meta
             /\ (opt_inverse (meta_options meta) = InverseNull
                 \/ (namedInverse (opt_inverse (meta_options meta)) = None
                     /\ findPossibleInverses this inverseType [] = []))).
Proof.
  intros this name. split.
  - intro H. unfold Ext.inverseFor in H.
    destruct (typeForRelationship this name) as [inverseType | ] eqn:Et;
      [ right | left; reflexivity ].
    destruct (metaForProperty this name) as [meta | message | ] eqn:Em;
      try discriminate.
    exists inverseType, meta. split; [ reflexivity | ].
    split; [ reflexivity | ]. cbn [bind] in H.
    destruct (isNull (opt_inverse (meta_options meta))) eqn:En.
    + left. destruct (opt_inverse (meta_options meta));
        [ discriminate | reflexivity | discriminate ].
    + right.
      destruct (namedInverse (opt_inverse (meta_options meta)))
        as [inverseName | ] eqn:Ei.
      * destruct (EmberMap.get String.eqb (relationshipsByName inverseType)
                    inverseName); simpl in H; discriminate.
      * split; [ reflexivity | ].
        destruct (findPossibleInverses this inverseType [])
          as [ | e [ | e2 rest ] ]; simpl in H;
          [ reflexivity | discriminate | discriminate ].
  - intros [Et | [inverseType [meta [Et [Em H]]]]]; unfold Ext.inverseFor;
      rewrite Et; [ reflexivity | ].
    rewrite Em. cbn [bind].
    destruct H as [Eo | [Ei Ef]].
    + rewrite Eo. reflexivity.
    + destruct (isNull (opt_inverse (meta_options meta)));
        [ reflexivity | ].
      rewrite Ei, Ef. reflexivity.
Qed.

Lemma inverseFor_descriptor_returned : forall this name inverseType meta,
    typeForRelationship this name = Some inverseType ->
    metaForProperty this name = Ok meta ->
    opt_inverse (meta_options meta) <> InverseNull ->
    (forall inverseName,
        namedInverse (opt_inverse (meta_options meta)) = Some inverseName ->
        definesRelationship inverseType inverseName ->
        exists kind,
          inverseFor this name
          = Ok (Some (mkInverse inverseType inverseName kind)))
    /\ (forall e,
           namedInverse (opt_inverse (meta_options meta)) = None ->
           findPossibleInverses this inverseType [] = [e] ->
           inverseFor this name
           = Ok (Some (mkInverse inverseType (ent_name e) (ent_kind e)))).
Proof.
  intros this name inverseType meta Et Em notnull.
  assert (isNull (opt_inverse (meta_options meta)) = false) as En.
  { destruct (opt_inverse (meta_options meta)); try reflexivity.
    contradiction. }
  split.
  - intros inverseName Ei Hdef.
    destruct (relationshipsByName_defined _ _ Hdef) as [r Er].
    exists (rel_kind r). unfold Ext.inverseFor.
    rewrite Et, Em. cbn [bind]. rewrite En, Ei, Er. reflexivity.
  - intros e Ei Ef. unfold Ext.inverseFor.
    rewrite Et, Em. cbn [bind]. rewrite En, Ei, Ef. reflexivity.
Qed.

(** C1 (amended).  A descriptor returned by [inverseFor] carries the related
    type; with a named inverse its name is the given one and its kind that of
    a relationship of that name on the related type, wherever that
    relationship points; with no inverse named it is the single relationship
    of the related type that resolves to the model or one of its
    superclasses.  Such a descriptor is returned when the named relationship
    exists, or when there is exactly one candidate.  The result is [null]
    exactly when the name has no resolved type, when [options.inverse] is
    [null], or when no inverse is named and there is no candidate. *)
Theorem inverseFor_descriptor : forall this name,
    (forall d,
        inverseFor this name = Ok (Some d) ->
        typeForRelationship this name = Some (inv_type d)
        /\ exists meta,
            metaForProperty this name = Ok meta
            /\ opt_inverse (meta_options meta) <> InverseNull
            /\ ((namedInverse (opt_inverse (meta_options meta))
                 = Some (inv_name d)
                 /\ exists target,
                     relationshipOn (inv_type d) (inv_name d) (inv_kind d)
                                    target)
                \/ (namedInverse (opt_inverse (meta_options meta)) = None
                    /\ findPossibleInverses this (inv_type d) []
                       = [mkEntry (inv_name d) (inv_kind d)]
                    /\ exists target,
                        relationshipOn (inv_type d) (inv_name d) (inv_kind d)
                                       (Some target)
                        /\ In target (ancestry this))))
    /\ (forall inverseType meta,
           typeForRelationship this name = Some inverseType ->
           metaForProperty this name = Ok meta ->
           opt_inverse (meta_options meta) <> InverseNull ->
           (forall inverseName,
               namedInverse (opt_inverse (meta_options meta))
               = Some inverseName ->
               definesRelationship inverseType inverseName ->
               exists kind,
                 inverseFor this name
                 = Ok (Some (mkInverse inverseType inverseName kind)))
           /\ (forall e,
                  namedInverse (opt_inverse (meta_options meta)) = None ->
                  findPossibleInverses this inverseType [] = [e] ->
                  inverseFor this name
                  = Ok (Some (mkInverse inverseType (ent_name e)
                                        (ent_kind e)))))
    /\ (inverseFor this name = Ok None
        <-> (typeForRelationship this name = None
             \/ exists inverseType meta,
                 typeForRelationship this name = Some inverseType
                 /\ metaForProperty this name = Ok meta
                 /\ (opt_inverse (meta_options meta) = InverseNull
                     \/ (namedInverse (opt_inverse (meta_options meta)) = None
                         /\ findPossibleInverses this inverseType [] = [])))).
Proof.
  intros this name. split; [ | split ].
  - apply inverseFor_descriptor_sound.
  - apply inverseFor_descriptor_returned.
  - apply inverseFor_null_iff.
Qed.

Lemma relatedTypes_loop : forall this,
    relatedTypes this
    = fold_left (fun acc p => types <- acc ;; relatedTypesStep this types p)
                (computedProperties this) (Ok []).
Proof.
  intro this. unfold Ext.relatedTypes, eachComputedProperty.
  apply fold_left_pointwise. intros acc [n m].
  destruct acc as [types | message | ]; try reflexivity.
  unfold ExtSpec.relatedTypesStep. simpl.
  destruct (isRelationship m); [ | reflexivity ].
  destruct (typeForRelationshipMeta (setKey n m)) as [t | ]; simpl;
    [ | reflexivity ].
  destruct (Ext.contains types (Some t)); reflexivity.
Qed.

Lemma relatedTypes_loop_failed : forall this l message,
    fold_left (fun acc p => types <- acc ;; relatedTypesStep this types p)
              l (AssertionFailed message)
    = AssertionFailed message.
Proof.
  intros this. induction l as [ | p rest IH ]; intro message; simpl.
  - reflexivity.
  - apply IH.
Qed.

Lemma relatedTypes_loop_unresolved : forall this l types,
    (exists name meta, In (name, meta) l /\ isRelationship meta = true
                       /\ typeForRelationshipMeta (setKey name meta) = None) ->
    exists name meta,
      In (name, meta) l /\ isRelationship meta = true
      /\ typeForRelationshipMeta (setKey name meta) = None
      /\ fold_left
           (fun acc p => types <- acc ;; relatedTypesStep this types p)
           l (Ok types)
         = AssertionFailed (notFoundMessage meta).
Proof.
  intros this. induction l as [ | [n m] rest IH ]; intros types H.
  - destruct H as [name [meta [[] _]]].
  - cbn [fold_left bind].
    destruct (relatedTypesStep this types (n, m)) as [types' | message | ]
      eqn:Estep.
    + assert (exists name meta,
                 In (name, meta) rest /\ isRelationship meta = true
                 /\ typeForRelationshipMeta (setKey name meta) = None)
        as Hrest.
      { destruct H as [name [meta [[e | i] [r u]]]].
        - injection e as -> ->. unfold ExtSpec.relatedTypesStep in Estep.
          simpl in Estep. rewrite r, u in Estep. discriminate.
        - exists name, meta. auto. }
      destruct (IH types' Hrest) as [name [meta [i [r [u E]]]]].
      exists name, meta. split; [ right; exact i | auto ].
    + unfold ExtSpec.relatedTypesStep in Estep. simpl in Estep.
      destruct (isRelationship m) eqn:Er; [ | discriminate ].
      destruct (typeForRelationshipMeta (setKey n m)) as [t | ] eqn:Et.
      * destruct (Ext.contains types (Some t)); discriminate.
      * injection Estep as <-. exists n, m.
        split; [ left; reflexivity | ].
        split; [ exact Er | ]. split; [ exact Et | ].
        apply relatedTypes_loop_failed.
    + unfold ExtSpec.relatedTypesStep in Estep. simpl in Estep.
      destruct (isRelationship m); [ | discriminate ].
      destruct (typeForRelationshipMeta (setKey n m)) as [t | ];
        [ | discriminate ].
      destruct (Ext.contains types (Some t)); discriminate.
Qed.

(** C3. When some relationship of a class has a type that does not resolve,
    computing [relatedTypes] aborts with the assertion whose message names
    the declared type of such a relationship (the first in enumeration
    order); no list of types is returned. *)
Theorem relatedTypes_unresolved_aborts : forall this,
    (exists name meta,
        In (name, meta) (computedProperties this)
        /\ isRelationship meta = true
        /\ typeForRelationshipMeta (setKey name meta) = None) ->
    exists name meta,
      In (name, meta) (computedProperties this)
      /\ isRelationship meta = true
      /\ typeForRelationshipMeta (setKey name meta) = None
      /\ relatedTypes this
         = AssertionFailed
             ("You specified a hasMany (" ++ meta_type meta ++ ") on "
                ++ meta_parentType meta ++ " but " ++ meta_type meta
                ++ " was not found.").
Proof.
  intros this H. rewrite relatedTypes_loop.
  apply (relatedTypes_loop_unresolved this _ [] H).
Qed.

(** C9. For a name that is not a relationship of the class,
    [typeForRelationship] is [undefined] (no abort) and [inverseFor] returns
    [null]. *)
Theorem typeForRelationship_undefined : forall this name,
    ~ definesRelationship this name ->
    typeForRelationship this name = None
    /\ inverseFor this name = Ok None.
Proof.
  intros this name H.
  assert (typeForRelationship this name = None) as E.
  { unfold Ext.typeForRelationship.
    rewrite relationshipsByName_get_None by exact H. reflexivity. }
  split; [ exact E | ].
  unfold Ext.inverseFor. rewrite E. reflexivity.
Qed.

(** C2. With a resolved related type: when [options.inverse] names a
    relationship (a non-empty name) the related type does not define,
    [inverseFor] aborts with the assertion "We found no inverse relationships
    by the name of ..."; when no inverse is named (and it is not [null]) and
    more than one candidate is found, it aborts with the assertion on
    multiple possible inverse relationships. *)
Theorem inverseFor_aborts : forall this name inverseType meta,
    typeForRelationship this name = Some inverseType ->
    metaForProperty this name = Ok meta ->
    (forall inverseName,
        opt_inverse (meta_options meta) = InverseName inverseName ->
        inverseName <> "" ->
        ~ definesRelationship inverseType inverseName ->
        inverseFor this name
        = AssertionFailed
            ("We found no inverse relationships by the name of '"
               ++ inverseName ++ "' on the '" ++ typeKey inverseType
               ++ "' model. This is most likely due to a missing attribute on your model definition."))
    /\ (opt_inverse (meta_options meta) <> InverseNull ->
        namedInverse (opt_inverse (meta_options meta)) = None ->
        (1 < length (findPossibleInverses this inverseType []))%nat ->
        inverseFor this name
        = AssertionFailed
            ("You defined the '" ++ name ++ "' relationship on "
               ++ toString this
               ++ ", but multiple possible inverse relationships of type "
               ++ toString this ++ " were found on " ++ toString inverseType
               ++ ". Look at http://emberjs.com/guides/models/defining-models/#toc_explicit-inverses for how to explicitly specify inverses")).
Proof.
  intros this name inverseType meta Et Em. split.
  - intros inverseName Ei ne Hno.
    unfold Ext.inverseFor. rewrite Et, Em. simpl. rewrite Ei. simpl.
    destruct (inverseName =? "") eqn:E;
      [ apply String.eqb_eq in E; contradiction | ].
    rewrite relationshipsByName_get_None by exact Hno. reflexivity.
  - intros notnull En Hlen.
    unfold Ext.inverseFor. rewrite Et, Em. simpl.
    destruct (opt_inverse (meta_options meta)) as [ | | n ] eqn:Ei;
      [ | contradiction | ]; simpl; simpl in En; try rewrite En;
      destruct (findPossibleInverses this inverseType [])
        as [ | e1 [ | e2 rest ] ]; simpl in Hlen; try lia; reflexivity.
Qed.

Lemma relationshipNames_loop : forall l names,
    fold_left (fun acc p =>
                 if isRelationship (snd p)
                 then Ext.pushName acc (meta_kind (snd p)) (fst p)
                 else acc) l names
    = mkNames (names_hasMany names ++ namesOfKind HasMany l)%list
              (names_belongsTo names ++ namesOfKind BelongsTo l)%list.
Proof.
  induction l as [ | [n meta] rest IH ]; intros [hm bt]; simpl.
  - unfold ExtSpec.namesOfKind. simpl. rewrite !app_nil_r. reflexivity.
  - rewrite IH. unfold ExtSpec.namesOfKind. simpl.
    destruct (isRelationship meta); [ | reflexivity ].
    destruct (meta_kind meta); simpl; rewrite <- app_assoc; reflexivity.
Qed.

Lemma relationshipNames_lists : forall c,
    Ext.relationshipNames c
    = mkNames (namesOfKind HasMany (computedProperties c))
              (namesOfKind BelongsTo (computedProperties c)).
Proof.
  intro c. unfold Ext.relationshipNames, eachComputedProperty.
  rewrite relationshipNames_loop. reflexivity.
Qed.

Lemma namesOfKind_In : forall kind l name,
    In name (namesOfKind kind l)
    <-> exists meta, In (name, meta) l /\ isRelationship meta = true
                     /\ meta_kind meta = kind.
Proof.
  intros kind l name. unfold ExtSpec.namesOfKind. rewrite in_map_iff. split.
  - intros [[n meta] [e H]]. simpl in e. subst n.
    apply filter_In in H. destruct H as [i H]. simpl in H.
    apply andb_true_iff in H. destruct H as [r k].
    destruct (Kind_eq_dec (meta_kind meta) kind); [ | discriminate ].
    exists meta. auto.
  - intros [meta [i [r k]]]. exists (name, meta).
    split; [ reflexivity | ]. apply filter_In. split; [ exact i | ].
    simpl. rewrite r.
    destruct (Kind_eq_dec (meta_kind meta) kind); [ reflexivity | ].
    contradiction.
Qed.

Lemma relationshipNames_kind : forall c kind name,
    NoDup (map fst (computedProperties c)) ->
    In name (namesOfKind kind (computedProperties c)) ->
    exists r,
      EmberMap.get String.eqb (relationshipsByName c) name = Some r
      /\ rel_kind r = kind.
Proof.
  intros c kind name nd H. apply namesOfKind_In in H.
  destruct H as [meta [i [r k]]].
  rewrite (relationshipsByName_get_unique c name meta nd i).
  unfold ExtSpec.descriptorOf. simpl. rewrite r.
  eexists. split; [ reflexivity | exact k ].
Qed.

(** C10. For a class whose computed properties have distinct names: the
    names in the two lists of [relationshipNames] are the keys of
    [relationshipsByName]; [fields] maps each of them to the kind of its
    descriptor in [relationshipsByName]; the names of the [hasMany] list have
    kind [hasMany] and those of the [belongsTo] list kind [belongsTo]. *)
Theorem relationship_introspection_agrees : forall c,
    NoDup (map fst (computedProperties c)) ->
    (forall name,
        In name (names_hasMany (Ext.relationshipNames c)
                   ++ names_belongsTo (Ext.relationshipNames c))%list
        <-> In name (EmberMap.keys (relationshipsByName c)))
    /\ (forall name r,
           EmberMap.get String.eqb (relationshipsByName c) name = Some r ->
           EmberMap.get String.eqb (Ext.fields c) name
           = Some (kindName (rel_kind r)))
    /\ (forall name,
           In name (names_hasMany (Ext.relationshipNames c)) ->
           exists r,
             EmberMap.get String.eqb (relationshipsByName c) name = Some r
             /\ rel_kind r = HasMany)
    /\ (forall name,
           In name (names_belongsTo (Ext.relationshipNames c)) ->
           exists r,
             EmberMap.get String.eqb (relationshipsByName c) name = Some r
             /\ rel_kind r = BelongsTo).
Proof.
  intros c nd. rewrite relationshipNames_lists. simpl.
  split; [ | split; [ | split ] ].
  - intro name. rewrite in_app_iff, !namesOfKind_In.
    rewrite (get_Some_keys _ string_eqb_spec). split.
    + intros [[meta [i [r _]]] | [meta [i [r _]]]];
        apply relationshipsByName_defined; exists meta; auto.
    + intros [r H]. apply relationshipsByName_get_Some in H.
      destruct H as [meta [i Ed]]. apply descriptorOf_Some in Ed.
      simpl in Ed. destruct Ed as [rel _].
      destruct (meta_kind meta) eqn:Ek; [ left | right ];
        exists meta; auto.
  - intros name r H. apply relationshipsByName_get_Some in H.
    destruct H as [meta [i Ed]]. apply descriptorOf_Some in Ed.
    simpl in Ed. destruct Ed as [rel [_ [kind _]]].
    rewrite fields_writes, (get_writes _ string_eqb_spec). simpl.
    apply (lastWrite_unique _ string_eqb_spec _ fst fieldKindOf _ name
             (name, meta) _ None nd i eq_refl).
    unfold ExtSpec.fieldKindOf. simpl. rewrite rel, kind. reflexivity.
  - intro name. apply relationshipNames_kind. exact nd.
  - intro name. apply relationshipNames_kind. exact nd.
Qed.

End StoreFacts.

(** ** Facts on the serializer *)

Lemma jsonGet_set_same : forall object key value,
    jsonGet (jsonSet object key value) key = value.
Proof.
  intros object key value. unfold jsonGet, jsonSet.
  rewrite (get_set_same _ string_eqb_spec). reflexivity.
Qed.

Lemma jsonGet_set_other : forall object key key' value,
    key <> key' ->
    jsonGet (jsonSet object key value) key' = jsonGet object key'.
Proof.
  intros object key key' value ne. unfold jsonGet, jsonSet.
  rewrite (get_set_other _ string_eqb_spec) by exact ne. reflexivity.
Qed.

Lemma set_keys_NoDup : forall (V : Type) (m : list (string * V)) k v,
    NoDup (EmberMap.keys m) ->
    NoDup (EmberMap.keys (EmberMap.set String.eqb m k v))
    /\ forall k', In k' (EmberMap.keys (EmberMap.set String.eqb m k v))
                  -> k' = k \/ In k' (EmberMap.keys m).
Proof.
  intros V. induction m as [ | [k0 v0] rest IH ]; intros k v nd; simpl.
  - split; [ constructor; [ intros [] | constructor ] | ].
    intros k' [e | []]. left. congruence.
  - inversion nd as [ | ? ? notin nd' ]; subst.
    destruct (k0 =? k) eqn:E; simpl.
    + split; [ exact nd | intros k' H; right; exact H ].
    + destruct (IH k v nd') as [nd2 sub]. split.
      * constructor; [ | exact nd2 ].
        intro i. apply sub in i. destruct i as [e | i]; [ | contradiction ].
        subst k0. rewrite String.eqb_refl in E. discriminate.
      * intros k' [e | i]; [ right; left; exact e | ].
        apply sub in i. destruct i as [e | i]; [ left | right; right ];
          assumption.
Qed.

Lemma writes_keys_NoDup : forall (P V : Type) (key : P -> string)
    (value : P -> option V) l m,
    NoDup (EmberMap.keys m) ->
    NoDup (EmberMap.keys (EmberMap.writes String.eqb key value l m)).
Proof.
  intros P V key value. unfold EmberMap.writes.
  induction l as [ | p rest IH ]; intros m nd; simpl.
  - exact nd.
  - apply IH. destruct (value p) as [v | ]; [ | exact nd ].
    apply set_keys_NoDup. exact nd.
Qed.

Lemma get_In : forall (V : Type) (m : list (string * V)) k v,
    EmberMap.get String.eqb m k = Some v -> In (k, v) m.
Proof.
  intros V. induction m as [ | [k0 v0] rest IH ]; intros k v H; simpl in H.
  - discriminate.
  - destruct (k0 =? k) eqn:E.
    + apply String.eqb_eq in E. injection H as <-. left. congruence.
    + right. apply IH. exact H.
Qed.

Section SerializerFacts.
Variable typeForRelationshipMeta : Meta -> option ModelClass.

#[local] Abbreviation relationshipsByName :=
  (Ext.relationshipsByName typeForRelationshipMeta).
#[local] Abbreviation serialize :=
  (JSONSerializer.serialize typeForRelationshipMeta).
#[local] Abbreviation normalize :=
  (JSONSerializer.normalize typeForRelationshipMeta).
#[local] Abbreviation extractSingle :=
  (JSONSerializer.extractSingle typeForRelationshipMeta).
#[local] Abbreviation descriptorOf :=
  (ExtSpec.descriptorOf typeForRelationshipMeta).
#[local] Abbreviation relationshipsAvoid :=
  (SerializerSpec.relationshipsAvoid typeForRelationshipMeta).
#[local] Abbreviation attributeOfType := SerializerSpec.attributeOfType.
#[local] Abbreviation relationshipOfType := SerializerSpec.relationshipOfType.
#[local] Abbreviation onlyAttributeUnder := SerializerSpec.onlyAttributeUnder.
#[local] Abbreviation noFieldNamed := SerializerSpec.noFieldNamed.
#[local] Abbreviation attributesAvoid := SerializerSpec.attributesAvoid.
#[local] Abbreviation relatedId := SerializerSpec.relatedId.

Lemma relationshipsByName_NoDup : forall c,
    NoDup (EmberMap.keys (relationshipsByName c)).
Proof.
  intro c. rewrite relationshipsByName_writes.
  apply writes_keys_NoDup. constructor.
Qed.

(** The attribute loop as a sequence of writes. *)
Lemma eachAttribute_writes : forall (type : ModelClass)
    (key : string -> string) (value : string -> Json) json,
    JSONSerializer.eachAttribute type
      (fun json name _ => jsonSet json (key name) (value name)) json
    = EmberMap.writes String.eqb (fun p => key (fst p))
        (fun p => if isAttribute (snd p) then Some (value (fst p)) else None)
        (computedProperties type) json.
Proof.
  intros type key value json.
  unfold JSONSerializer.eachAttribute, eachComputedProperty, EmberMap.writes.
  apply fold_left_pointwise. intros m [name meta]. simpl.
  destruct (isAttribute meta); reflexivity.
Qed.

(** The relationship loop of [serialize] returns and leaves a member alone
    when each of its rounds does. *)
Lemma serialize_relationships_preserve : forall this record key,
    relationshipsAvoid this record key ->
    forall json,
    exists json',
      JSONSerializer.eachRelationship typeForRelationshipMeta
        (record_class record)
        (fun result (_ : string) relationship =>
           json <- result ;;
           match rel_kind relationship with
           | BelongsTo =>
               JSONSerializer.serializeBelongsTo this record json relationship
           | HasMany =>
               Ok (JSONSerializer.serializeHasMany this record json
                     relationship)
           end)
        (Ok json)
      = Ok json'
      /\ jsonGet json' key = jsonGet json key.
Proof.
  intros this record key. unfold SerializerSpec.relationshipsAvoid.
  unfold JSONSerializer.eachRelationship.
  generalize (relationshipsByName (record_class record)).
  induction l as [ | [name relationship] rest IH ]; intros H json.
  - exists json. split; reflexivity.
  - cbn [fold_left fst snd bind].
    destruct (H name relationship json (or_introl eq_refl))
      as [json1 [E1 G1]].
    rewrite E1.
    destruct (IH (fun n r j i => H n r j (or_intror i)) json1)
      as [json2 [E2 G2]].
    exists json2. split; [ exact E2 | congruence ].
Qed.

(** The relationship loop of [normalize] as a sequence of writes. *)
Lemma normalize_relationships_writes : forall type
    (value : string -> Relationship -> Json) data,
    JSONSerializer.eachRelationship typeForRelationshipMeta type
      (fun data name relationship =>
         jsonSet data name (value name relationship)) data
    = EmberMap.writes String.eqb fst
        (fun entry => Some (value (fst entry) (snd entry)))
        (relationshipsByName type) data.
Proof. intros type value data. reflexivity. Qed.

Lemma payloadKeyForAttribute_attrs : forall this name payloadKey,
    EmberMap.get String.eqb (JSONSerializer.attrs this) name = Some payloadKey ->
    JSONSerializer.payloadKeyForAttribute this name = payloadKey.
Proof.
  intros this name payloadKey H. unfold JSONSerializer.payloadKeyForAttribute.
  rewrite H. reflexivity.
Qed.

Lemma payloadKeyForAttribute_hook : forall this name,
    EmberMap.get String.eqb (JSONSerializer.attrs this) name = None ->
    JSONSerializer.payloadKeyForAttribute this name
    = JSONSerializer.keyForAttribute this name.
Proof.
  intros this name H. unfold JSONSerializer.payloadKeyForAttribute.
  rewrite H. reflexivity.
Qed.

Lemma serialize_attribute : forall this record name meta includeId,
    In (name, meta) (computedProperties (record_class record)) ->
    isAttribute meta = true ->
    onlyAttributeUnder this (record_class record) name
      (JSONSerializer.payloadKeyForAttribute this name) ->
    relationshipsAvoid this record
      (JSONSerializer.payloadKeyForAttribute this name) ->
    exists json,
      serialize this record includeId = Ok json
      /\ jsonGet json (JSONSerializer.payloadKeyForAttribute this name)
         = attributeOf record name.
Proof.
  intros this record name meta includeId i a only avoid.
  unfold JSONSerializer.serialize.
  match goal with
  | |- exists json,
        JSONSerializer.eachRelationship _ _ _ (Ok ?start) = Ok json /\ _ =>
      destruct (serialize_relationships_preserve this record _ avoid start)
        as [json [E G]]
  end.
  exists json. split; [ exact E | ]. rewrite G.
  unfold JSONSerializer.serializeAttribute.
  rewrite (eachAttribute_writes (record_class record)
             (JSONSerializer.payloadKeyForAttribute this)
             (attributeOf record)).
  unfold jsonGet. rewrite (get_writes _ string_eqb_spec).
  rewrite (lastWrite_agree _ string_eqb_spec _ _ _ _ _ (name, meta)
             (attributeOf record name)).
  - reflexivity.
  - exact i.
  - simpl. rewrite a. reflexivity.
  - reflexivity.
  - intros [n m] iq e. simpl in e. simpl.
    destruct (isAttribute m) eqn:Em; [ left | right; reflexivity ].
    rewrite (only n m iq Em e). reflexivity.
Qed.

Lemma serialize_untouched : forall this record key includeId,
    (forall name meta,
        In (name, meta) (computedProperties (record_class record)) ->
        isAttribute meta = true ->
        JSONSerializer.payloadKeyForAttribute this name <> key) ->
    relationshipsAvoid this record key ->
    exists json,
      serialize this record includeId = Ok json
      /\ jsonGet json key
         = if includeId then
             jsonGet (jsonSet [] (JSONSerializer.primaryKey this)
                              (record_id record)) key
           else JUndefined.
Proof.
  intros this record key includeId others avoid.
  unfold JSONSerializer.serialize.
  match goal with
  | |- exists json,
        JSONSerializer.eachRelationship _ _ _ (Ok ?start) = Ok json /\ _ =>
      destruct (serialize_relationships_preserve this record _ avoid start)
        as [json [E G]]
  end.
  exists json. split; [ exact E | ]. rewrite G.
  unfold JSONSerializer.serializeAttribute.
  rewrite (eachAttribute_writes (record_class record)
             (JSONSerializer.payloadKeyForAttribute this)
             (attributeOf record)).
  unfold jsonGet at 1. rewrite (get_writes _ string_eqb_spec).
  rewrite (lastWrite_none _ string_eqb_spec).
  - destruct includeId; reflexivity.
  - intros [n m] iq e. simpl in e. simpl.
    destruct (isAttribute m) eqn:Em; [ | reflexivity ].
    exfalso. apply (others n m iq Em e).
Qed.

Lemma normalize_attribute : forall this type hash name,
    attributeOfType type name ->
    jsonGet (normalize this type hash) name
    = jsonGet hash (JSONSerializer.payloadKeyForAttribute this name).
Proof.
  intros this type hash name [nd [meta [i [a r]]]].
  unfold JSONSerializer.normalize.
  rewrite (normalize_relationships_writes type
             (fun key relationship =>
                jsonGet hash (JSONSerializer.keyForRelationship this key
                                (rel_kind relationship)))).
  rewrite (eachAttribute_writes type (fun key => key)
             (fun key => jsonGet hash
                           (JSONSerializer.payloadKeyForAttribute this key))).
  unfold jsonGet at 1. rewrite (get_writes _ string_eqb_spec).
  rewrite (lastWrite_none _ string_eqb_spec).
  - rewrite (get_writes _ string_eqb_spec).
    rewrite (lastWrite_unique _ string_eqb_spec _ _ _ _ name (name, meta)
               (jsonGet hash
                  (JSONSerializer.payloadKeyForAttribute this name))).
    + reflexivity.
    + exact nd.
    + exact i.
    + reflexivity.
    + simpl. rewrite a. reflexivity.
  - intros [n rel] iq e. simpl in e. subst n. exfalso.
    assert (EmberMap.get String.eqb (relationshipsByName type) name = None)
      as none.
    { rewrite (relationshipsByName_get_unique _ type name meta nd i).
      unfold ExtSpec.descriptorOf. simpl. rewrite r. reflexivity. }
    apply (get_None_keys _ string_eqb_spec) in none. apply none.
    change name with (fst (name, rel)). apply in_map. exact iq.
Qed.

Lemma normalize_relationship : forall this type hash name kind,
    relationshipOfType type name kind ->
    jsonGet (normalize this type hash) name
    = jsonGet hash (JSONSerializer.keyForRelationship this name kind).
Proof.
  intros this type hash name kind [nd [meta [i [r k]]]].
  unfold JSONSerializer.normalize.
  rewrite (normalize_relationships_writes type
             (fun key relationship =>
                jsonGet hash (JSONSerializer.keyForRelationship this key
                                (rel_kind relationship)))).
  unfold jsonGet at 1. rewrite (get_writes _ string_eqb_spec).
  assert (EmberMap.get String.eqb (relationshipsByName type) name
          = Some (mkRelationship name kind
                    (typeForRelationshipMeta (setKey name meta))
                    (meta_options meta))) as E.
  { rewrite (relationshipsByName_get_unique _ type name meta nd i).
    unfold ExtSpec.descriptorOf. simpl. rewrite r, k. reflexivity. }
  apply get_In in E.
  rewrite (lastWrite_unique _ string_eqb_spec _ fst
             (fun entry : string * Relationship =>
                Some (jsonGet hash
                        (JSONSerializer.keyForRelationship this (fst entry)
                           (rel_kind (snd entry)))))
             _ name _ _ _
             (relationshipsByName_NoDup type) E eq_refl eq_refl).
  reflexivity.
Qed.

Lemma normalize_id : forall this type hash,
    (forall meta, In ("id", meta) (computedProperties type) ->
                  isAttribute meta = false /\ isRelationship meta = false) ->
    jsonGet (normalize this type hash) "id"
    = jsonGet hash (JSONSerializer.primaryKey this).
Proof.
  intros this type hash H. unfold JSONSerializer.normalize.
  rewrite (normalize_relationships_writes type
             (fun key relationship =>
                jsonGet hash (JSONSerializer.keyForRelationship this key
                                (rel_kind relationship)))).
  rewrite (eachAttribute_writes type (fun key => key)
             (fun key => jsonGet hash
                           (JSONSerializer.payloadKeyForAttribute this key))).
  unfold jsonGet at 1. rewrite (get_writes _ string_eqb_spec).
  rewrite (lastWrite_none _ string_eqb_spec).
  - rewrite (get_writes _ string_eqb_spec).
    rewrite (lastWrite_none _ string_eqb_spec).
    + fold (jsonGet (jsonSet [] "id"
                       (jsonGet hash (JSONSerializer.primaryKey this))) "id").
      apply jsonGet_set_same.
    + intros [n m] iq e. simpl in e. subst n. simpl.
      destruct (H m iq) as [a _]. rewrite a. reflexivity.
  - intros [n rel] iq e. simpl in e. subst n. exfalso.
    assert (EmberMap.get String.eqb (relationshipsByName type) "id" = None)
      as none.
    { apply relationshipsByName_get_None. intros [m [im rm]].
      destruct (H m im) as [_ r]. congruence. }
    apply (get_None_keys _ string_eqb_spec) in none. apply none.
    change "id" with (fst ("id", rel)). apply in_map. exact iq.
Qed.

Lemma serializeBelongsTo_written : forall this record json relationship,
    JSONSerializer.serializeBelongsTo this record json relationship
    = let json :=
        jsonSet json
          (JSONSerializer.keyForRelationship this (rel_key relationship)
             BelongsTo)
          (relatedId record (rel_key relationship)) in
      if opt_polymorphic (rel_options relationship)
      then JSONSerializer.serializePolymorphicType this record json
             relationship
      else Ok json.
Proof.
  intros this record json relationship.
  unfold JSONSerializer.serializeBelongsTo, SerializerSpec.relatedId.
  destruct (belongsToOf record (rel_key relationship)); reflexivity.
Qed.

Lemma append_longer : forall s suffix,
    suffix <> "" -> s ++ suffix <> s.
Proof.
  induction s as [ | c rest IH ]; intros suffix ne; simpl.
  - exact ne.
  - intro e. injection e as e. apply (IH suffix ne e).
Qed.

(** C4. With an [attrs] hash that maps an attribute name to a payload key:
    [serialize] leaves the record's value of the attribute under that
    payload key, when nothing else of the record is serialized under it; and
    [extractSingle] reads the attribute from the member of the (normalized)
    payload under that payload key. *)
Theorem attrs_hash_respected : forall this name payloadKey,
    EmberMap.get String.eqb (JSONSerializer.attrs this) name = Some payloadKey ->
    (forall record meta includeId,
        In (name, meta) (computedProperties (record_class record)) ->
        isAttribute meta = true ->
        onlyAttributeUnder this (record_class record) name payloadKey ->
        relationshipsAvoid this record payloadKey ->
        exists json,
          serialize this record includeId = Ok json
          /\ jsonGet json payloadKey = attributeOf record name)
    /\ (forall type payload hash,
           attributeOfType type name ->
           JSONSerializer.normalizePayload this payload = JObject hash ->
           exists data,
             extractSingle this type payload = JObject data
             /\ jsonGet data name = jsonGet hash payloadKey).
Proof.
  intros this name payloadKey H.
  apply payloadKeyForAttribute_attrs in H. split.
  - intros record meta includeId i a only avoid. rewrite <- H.
    apply (serialize_attribute this record name meta includeId i a);
      rewrite H; assumption.
  - intros type payload hash attribute E.
    exists (normalize this type hash). unfold JSONSerializer.extractSingle.
    rewrite E. split; [ reflexivity | ].
    rewrite normalize_attribute by exact attribute. rewrite H. reflexivity.
Qed.


(** C6. [serializeAttribute] leaves the attribute's value under
    [keyForAttribute(name)] (for a name the [attrs] hash does not remap);
    [serializeBelongsTo] (of a relationship that is not polymorphic) and
    [serializeHasMany] leave the related ids under
    [keyForRelationship(name)]; [normalize] reads an attribute from the
    member under [keyForAttribute(name)] and a relationship from the member
    under [keyForRelationship(name)]. *)
Theorem key_hooks_respected : forall this,
    (forall record json name attribute,
        EmberMap.get String.eqb (JSONSerializer.attrs this) name = None ->
        jsonGet (JSONSerializer.serializeAttribute this record json name
                   attribute)
                (JSONSerializer.keyForAttribute this name)
        = attributeOf record name)
    /\ (forall record json relationship,
           opt_polymorphic (rel_options relationship) = false ->
           exists json',
             JSONSerializer.serializeBelongsTo this record json relationship
             = Ok json'
             /\ jsonGet json'
                  (JSONSerializer.keyForRelationship this
                     (rel_key relationship) BelongsTo)
                = relatedId record (rel_key relationship))
    /\ (forall record json relationship,
           jsonGet (JSONSerializer.serializeHasMany this record json
                      relationship)
                   (JSONSerializer.keyForRelationship this
                      (rel_key relationship) HasMany)
           = JArray (map record_id
                         (hasManyOf record (rel_key relationship))))
    /\ (forall type hash name,
           EmberMap.get String.eqb (JSONSerializer.attrs this) name = None ->
           attributeOfType type name ->
           jsonGet (normalize this type hash) name
           = jsonGet hash (JSONSerializer.keyForAttribute this name))
    /\ (forall type hash name kind,
           relationshipOfType type name kind ->
           jsonGet (normalize this type hash) name
           = jsonGet hash (JSONSerializer.keyForRelationship this name kind)).
Proof.
  intro this. split; [ | split; [ | split; [ | split ] ] ].
  - intros record json name attribute H.
    unfold JSONSerializer.serializeAttribute.
    rewrite (payloadKeyForAttribute_hook this name H).
    apply jsonGet_set_same.
  - intros record json relationship H.
    rewrite serializeBelongsTo_written. cbv zeta. rewrite H.
    eexists. split; [ reflexivity | apply jsonGet_set_same ].
  - intros record json relationship.
    unfold JSONSerializer.serializeHasMany. apply jsonGet_set_same.
  - intros type hash name H attribute.
    rewrite normalize_attribute by exact attribute.
    rewrite (payloadKeyForAttribute_hook this name H). reflexivity.
  - intros type hash name kind. apply normalize_relationship.
Qed.

(** C7. For a relationship whose options say [polymorphic: true],
    [serializeBelongsTo] hands to [serializePolymorphicType] the JSON in
    which the related id is already written under the relationship key; so
    with a hook that leaves that member alone the result holds the id there,
    and with the hook of the test suite it also holds the related record's
    [typeKey] under the key followed by [TYPE] (that hook throws when there
    is no related record). *)
Theorem polymorphic_type_serialized : forall this record json relationship,
    opt_polymorphic (rel_options relationship) = true ->
    JSONSerializer.serializeBelongsTo this record json relationship
    = JSONSerializer.serializePolymorphicType this record
        (jsonSet json
           (JSONSerializer.keyForRelationship this (rel_key relationship)
              BelongsTo)
           (relatedId record (rel_key relationship)))
        relationship
    /\ ((forall json',
            exists json'',
              JSONSerializer.serializePolymorphicType this record json'
                relationship = Ok json''
              /\ jsonGet json''
                   (JSONSerializer.keyForRelationship this
                      (rel_key relationship) BelongsTo)
                 = jsonGet json'
                     (JSONSerializer.keyForRelationship this
                        (rel_key relationship) BelongsTo)) ->
        exists result,
          JSONSerializer.serializeBelongsTo this record json relationship
          = Ok result
          /\ jsonGet result
               (JSONSerializer.keyForRelationship this (rel_key relationship)
                  BelongsTo)
             = relatedId record (rel_key relationship))
    /\ (forall related,
           JSONSerializer.serializePolymorphicType this = typeKeyHook ->
           JSONSerializer.keyForRelationship this (rel_key relationship)
             BelongsTo = rel_key relationship ->
           belongsToOf record (rel_key relationship) = Some related ->
           exists result,
             JSONSerializer.serializeBelongsTo this record json relationship
             = Ok result
             /\ jsonGet result (rel_key relationship) = record_id related
             /\ jsonGet result (rel_key relationship ++ "TYPE")
                = JString (typeKey (record_class related)))
    /\ (JSONSerializer.serializePolymorphicType this = typeKeyHook ->
        belongsToOf record (rel_key relationship) = None ->
        JSONSerializer.serializeBelongsTo this record json relationship
        = TypeError).
Proof.
  intros this record json relationship H.
  rewrite serializeBelongsTo_written. cbv zeta. rewrite H.
  split; [ reflexivity | split; [ | split ] ].
  - intro keep.
    destruct (keep (jsonSet json
                      (JSONSerializer.keyForRelationship this
                         (rel_key relationship) BelongsTo)
                      (relatedId record (rel_key relationship))))
      as [result [E G]].
    exists result. split; [ exact E | ]. rewrite G.
    apply jsonGet_set_same.
  - intros related hook key E. rewrite hook, key.
    unfold typeKeyHook, SerializerSpec.relatedId. rewrite E.
    eexists. split; [ reflexivity | split ].
    + rewrite jsonGet_set_other
        by (apply append_longer; discriminate).
      apply jsonGet_set_same.
    + apply jsonGet_set_same.
  - intros hook E. rewrite hook. unfold typeKeyHook. rewrite E.
    reflexivity.
Qed.

(** C8. [extractSingle] normalizes what [normalizePayload] returns: the id
    and the attributes of the result are read from the hook's return value;
    with a hook that returns the member [response] of the payload, they are
    read from that member. *)
Theorem normalizePayload_applied : forall this type payload hash,
    JSONSerializer.normalizePayload this payload = JObject hash ->
    extractSingle this type payload = JObject (normalize this type hash)
    /\ (noFieldNamed type "id" ->
        member (extractSingle this type payload) "id"
        = jsonGet hash (JSONSerializer.primaryKey this))
    /\ (forall name,
           attributeOfType type name ->
           member (extractSingle this type payload) name
           = jsonGet hash (JSONSerializer.payloadKeyForAttribute this name))
    /\ (JSONSerializer.normalizePayload this
        = (fun payload => member payload "response") ->
        member payload "response" = JObject hash).
Proof.
  intros this type payload hash E.
  assert (extractSingle this type payload = JObject (normalize this type hash))
    as X.
  { unfold JSONSerializer.extractSingle. rewrite E. reflexivity. }
  rewrite X. simpl. split; [ reflexivity | split; [ | split ] ].
  - apply normalize_id.
  - intros name attribute. apply normalize_attribute. exact attribute.
  - intro hook. rewrite hook in E. exact E.
Qed.

End SerializerFacts.

(** ** The test suite, replayed

    Where the suite compares an extracted id with ["1"] it does so with the
    loose [equal] of the test framework, under which the number [1] the
    payload holds passes. *)

Example test_serializeAttribute :
  JSONSerializer.serializeAttribute JSONSerializer.default
    (railsPost JNull []) [] "title" (attr "string" "App.Post")
  = [("title", JString "Rails is omakase")].
Proof. reflexivity. Qed.

Example test_serializeAttribute_keyForAttribute :
  JSONSerializer.serializeAttribute (withKeyForAttribute toUpperCase)
    (railsPost JNull []) [] "title" (attr "string" "App.Post")
  = [("TITLE", JString "Rails is omakase")].
Proof. reflexivity. Qed.

Example test_serializeBelongsTo :
  JSONSerializer.serializeBelongsTo JSONSerializer.default
    (omakaseComment JNull (Some (railsPost (JString "1") []))) []
    (mkRelationship "post" BelongsTo None noOptions)
  = Ok [("post", JString "1")].
Proof. reflexivity. Qed.

Example test_serializeBelongsTo_null :
  JSONSerializer.serializeBelongsTo JSONSerializer.default
    (omakaseComment JNull None) []
    (mkRelationship "post" BelongsTo None noOptions)
  = Ok [("post", JNull)].
Proof. reflexivity. Qed.

Example test_serializeBelongsTo_keyForRelationship :
  JSONSerializer.serializeBelongsTo
    (withKeyForRelationship (fun key _ => toUpperCase key))
    (omakaseComment JNull (Some (railsPost (JString "1") []))) []
    (mkRelationship "post" BelongsTo None noOptions)
  = Ok [("POST", JString "1")].
Proof. reflexivity. Qed.

Example test_serializeHasMany_keyForRelationship :
  JSONSerializer.serializeHasMany
    (withKeyForRelationship (fun key _ => toUpperCase key))
    (railsPost (JString "1") [omakaseComment (JString "1") None]) []
    (mkRelationship "comments" HasMany None noOptions)
  = [("COMMENTS", JArray [JString "1"])].
Proof. reflexivity. Qed.

Example test_serializePolymorphicType :
  JSONSerializer.serializeBelongsTo
    (withSerializePolymorphicType typeKeyHook)
    (omakaseComment JNull (Some (railsPost (JString "1") []))) []
    (mkRelationship "post" BelongsTo None (mkOptions InverseUndefined true))
  = Ok [("post", JString "1"); ("postTYPE", JString "post")].
Proof. reflexivity. Qed.

Example test_attrs_extracting :
  member
    (JSONSerializer.extractSingle testStore
       (withAttrs [("title", "title_payload_key")]) Post
       (JObject [("title_payload_key", JString "Rails is omakase")]))
    "title"
  = JString "Rails is omakase".
Proof. reflexivity. Qed.

Example test_attrs_serializing :
  (payload <- JSONSerializer.serialize testStore
                (withAttrs [("title", "title_payload_key")])
                (railsPost JNull []) false ;;
   Ok (jsonGet payload "title_payload_key"))
  = Ok (JString "Rails is omakase").
Proof. reflexivity. Qed.

Example test_primaryKey_extracting :
  let post :=
    JSONSerializer.extractSingle testStore (withPrimaryKey "_ID_") Post
      (JObject [("_ID_", JNumber 1); ("title", JString "Rails is omakase")])
  in member post "id" = JNumber 1
     /\ member post "title" = JString "Rails is omakase".
Proof. split; reflexivity. Qed.

Example test_primaryKey_serializing :
  (payload <- JSONSerializer.serialize testStore (withPrimaryKey "_ID_")
                (railsPost (JString "1") []) true ;;
   Ok (jsonGet payload "_ID_"))
  = Ok (JString "1").
Proof. reflexivity. Qed.

Example test_keyForAttribute_extracting :
  let post :=
    JSONSerializer.normalize testStore (withKeyForAttribute toUpperCase) Post
      [("id", JNumber 1); ("TITLE", JString "Rails is omakase")]
  in jsonGet post "id" = JNumber 1
     /\ jsonGet post "title" = JString "Rails is omakase".
Proof. split; reflexivity. Qed.

Example test_keyForRelationship_extracting :
  jsonGet
    (JSONSerializer.normalize testStore
       (withKeyForRelationship (fun key _ => toUpperCase key)) Post
       [("id", JNumber 1); ("title", JString "Rails is omakase");
        ("COMMENTS", JArray [JString "1"])])
    "comments"
  = JArray [JString "1"].
Proof. reflexivity. Qed.

Example test_normalizePayload :
  let post :=
    JSONSerializer.extractSingle testStore
      (withNormalizePayload (fun payload => member payload "response")) Post
      (JObject [("response",
                 JObject [("id", JNumber 1);
                          ("title", JString "Rails is omakase")])])
  in member post "id" = JNumber 1
     /\ member post "title" = JString "Rails is omakase".
Proof. split; reflexivity. Qed.

(** The suite's classes: the inverse of [Comment.post] is [Post.comments],
    and [Post.comments], declared with [inverse: null], has none. *)
Example inverseFor_Comment_post :
  Ext.inverseFor testStore Comment "post"
  = Ok (Some (mkInverse Post "comments" HasMany)).
Proof. reflexivity. Qed.

Example inverseFor_Post_comments :
  Ext.inverseFor testStore Post "comments" = Ok None.
Proof. reflexivity. Qed.

(** ** The theorems at the classes of the test suite *)

Ltac members H :=
  simpl in H;
  repeat (destruct H as [H | H]; [ inversion H; subst; clear H | ]);
  try destruct H.

(** With the named inverse [author], [inverseFor] answers for [Blog.notes]
    with [Note.author], a relationship to [User]: it does not point back to
    [Blog], and no candidate inverse exists on [Note], yet the answer is not
    [null]. *)
Lemma inverseFor_named_inverse_unchecked :
  Ext.inverseFor blogStore Blog "notes"
  = Ok (Some (mkInverse Note "author" BelongsTo))
  /\ Ext.typeForRelationship blogStore Blog "notes" = Some Note
  /\ Ext.findPossibleInverses blogStore Blog Note [] = []
  /\ ~ (exists target,
           ExtSpec.relationshipOn blogStore Note "author" BelongsTo
                                  (Some target)
           /\ In target (ancestry Blog)).
Proof.
  split; [ reflexivity | ]. split; [ reflexivity | ].
  split; [ reflexivity | ].
  intros [target [[meta [i [r [k t]]]] anc]].
  members i. vm_compute in t. injection t as <-.
  simpl in anc. destruct anc as [e | [e | []]]; discriminate.
Qed.

Lemma inverseFor_descriptor_witness :
  (Ext.typeForRelationship testStore Comment "post" = Some Post
   /\ exists meta,
       metaForProperty Comment "post" = Ok meta
       /\ opt_inverse (meta_options meta) <> InverseNull
       /\ ((namedInverse (opt_inverse (meta_options meta)) = Some "comments"
            /\ exists target,
                ExtSpec.relationshipOn testStore Post "comments" HasMany
                                       target)
           \/ (namedInverse (opt_inverse (meta_options meta)) = None
               /\ Ext.findPossibleInverses testStore Comment Post []
                  = [mkEntry "comments" HasMany]
               /\ exists target,
                   ExtSpec.relationshipOn testStore Post "comments" HasMany
                                          (Some target)
                   /\ In target (ancestry Comment))))
  /\ (exists kind,
         Ext.inverseFor blogStore Blog "notes"
         = Ok (Some (mkInverse Note "author" kind)))
  /\ Ext.inverseFor testStore Comment "post"
     = Ok (Some (mkInverse Post "comments" HasMany))
  /\ Ext.inverseFor testStore Post "comments" = Ok None.
Proof.
  split; [ | split; [ | split ] ].
  - exact (proj1 (inverseFor_descriptor testStore Comment "post")
             (mkInverse Post "comments" HasMany) eq_refl).
  - refine (proj1 (proj1 (proj2 (inverseFor_descriptor blogStore Blog "notes"))
                     Note
                     (hasMany "note" (mkOptions (InverseName "author") false)
                        "App.Blog")
                     eq_refl eq_refl _)
              "author" eq_refl _).
    + discriminate.
    + exists (belongsTo "user" noOptions "App.Note"). split.
      * left. reflexivity.
      * reflexivity.
  - refine (proj2 (proj1 (proj2 (inverseFor_descriptor testStore Comment
                                   "post"))
                     Post (belongsTo "post" noOptions "App.Comment")
                     eq_refl eq_refl _)
              (mkEntry "comments" HasMany) eq_refl eq_refl).
    discriminate.
  - apply (proj2 (proj2 (inverseFor_descriptor testStore Post "comments"))).
    right. exists Comment.
    exists (hasMany "comment" (mkOptions InverseNull false) "App.Post").
    split; [ reflexivity | ]. split; [ reflexivity | ].
    left. reflexivity.
Defined.

Lemma inverseFor_aborts_witness :
  Ext.inverseFor libraryStore Book "owner"
  = AssertionFailed
      "We found no inverse relationships by the name of 'library' on the 'author' model. This is most likely due to a missing attribute on your model definition."
  /\ Ext.inverseFor libraryStore Author "books"
     = AssertionFailed
         "You defined the 'books' relationship on App.Author, but multiple possible inverse relationships of type App.Author were found on App.Book. Look at http://emberjs.com/guides/models/defining-models/#toc_explicit-inverses for how to explicitly specify inverses".
Proof.
  split.
  - refine (proj1 (inverseFor_aborts libraryStore Book "owner" Author
                     (belongsTo "author"
                        (mkOptions (InverseName "library") false) "App.Book")
                     eq_refl eq_refl)
              "library" eq_refl _ _).
    + discriminate.
    + intros [meta [i r]]. members i; discriminate.
  - refine (proj2 (inverseFor_aborts libraryStore Author "books" Book
                     (hasMany "book" noOptions "App.Author")
                     eq_refl eq_refl) _ eq_refl _).
    + discriminate.
    + vm_compute. lia.
Defined.

Lemma relatedTypes_unresolved_aborts_witness :
  exists name meta,
    In (name, meta) (computedProperties Orphan)
    /\ isRelationship meta = true
    /\ testStore (setKey name meta) = None
    /\ Ext.relatedTypes testStore Orphan
       = AssertionFailed
           ("You specified a hasMany (" ++ meta_type meta ++ ") on "
              ++ meta_parentType meta ++ " but " ++ meta_type meta
              ++ " was not found.").
Proof.
  apply (relatedTypes_unresolved_aborts testStore Orphan).
  exists "parent", (belongsTo "ghost" noOptions "App.Orphan").
  split; [ right; left; reflexivity | ].
  split; reflexivity.
Defined.

Lemma typeForRelationship_undefined_witness :
  Ext.typeForRelationship testStore Post "title" = None
  /\ Ext.inverseFor testStore Post "title" = Ok None.
Proof.
  apply (typeForRelationship_undefined testStore Post "title").
  intros [meta [i r]]. members i; discriminate.
Defined.

Lemma Post_names_distinct : NoDup (map fst (computedProperties Post)).
Proof.
  simpl. repeat constructor; simpl; intuition discriminate.
Defined.

Lemma relationship_introspection_agrees_witness :
  (forall name,
      In name (names_hasMany (Ext.relationshipNames Post)
                 ++ names_belongsTo (Ext.relationshipNames Post))%list
      <-> In name (EmberMap.keys (Ext.relationshipsByName testStore Post)))
  /\ (forall name r,
         EmberMap.get String.eqb (Ext.relationshipsByName testStore Post) name
         = Some r ->
         EmberMap.get String.eqb (Ext.fields Post) name
         = Some (kindName (rel_kind r)))
  /\ (forall name,
         In name (names_hasMany (Ext.relationshipNames Post)) ->
         exists r,
           EmberMap.get String.eqb (Ext.relationshipsByName testStore Post)
                        name = Some r
           /\ rel_kind r = HasMany)
  /\ (forall name,
         In name (names_belongsTo (Ext.relationshipNames Post)) ->
         exists r,
           EmberMap.get String.eqb (Ext.relationshipsByName testStore Post)
                        name = Some r
           /\ rel_kind r = BelongsTo).
Proof.
  apply (relationship_introspection_agrees testStore Post).
  exact Post_names_distinct.
Defined.

Lemma Post_title_attribute : SerializerSpec.attributeOfType Post "title".
Proof.
  split; [ exact Post_names_distinct | ].
  exists (attr "string" "App.Post").
  split; [ left; reflexivity | split; reflexivity ].
Defined.

Lemma Post_comments_relationship :
  SerializerSpec.relationshipOfType Post "comments" HasMany.
Proof.
  split; [ exact Post_names_distinct | ].
  exists (hasMany "comment" (mkOptions InverseNull false) "App.Post").
  split; [ right; left; reflexivity | split; reflexivity ].
Defined.

Lemma Post_no_id_field : SerializerSpec.noFieldNamed Post "id".
Proof. intros meta i. members i. Defined.

(** Serializing the relationships of a post with the default relationship
    keys touches [comments] only. *)
Lemma Post_relationships_avoid : forall this post key,
    record_class post = Post ->
    JSONSerializer.keyForRelationship this "comments" HasMany <> key ->
    SerializerSpec.relationshipsAvoid testStore this post key.
Proof.
  intros this post key E ne name relationship json i. rewrite E in i.
  vm_compute in i. members i. simpl.
  eexists. split; [ reflexivity | ].
  unfold JSONSerializer.serializeHasMany. simpl.
  apply jsonGet_set_other. exact ne.
Defined.

Lemma attrs_hash_respected_witness :
  (exists json,
      JSONSerializer.serialize testStore
        (withAttrs [("title", "title_payload_key")]) (railsPost JNull [])
        false
      = Ok json
      /\ jsonGet json "title_payload_key"
         = attributeOf (railsPost JNull []) "title")
  /\ exists data,
      JSONSerializer.extractSingle testStore
        (withAttrs [("title", "title_payload_key")]) Post
        (JObject [("title_payload_key", JString "Rails is omakase")])
      = JObject data
      /\ jsonGet data "title"
         = jsonGet [("title_payload_key", JString "Rails is omakase")]
                   "title_payload_key".
Proof.
  destruct (attrs_hash_respected testStore
              (withAttrs [("title", "title_payload_key")])
              "title" "title_payload_key" eq_refl) as [S E].
  split.
  - apply (S (railsPost JNull []) (attr "string" "App.Post") false).
    + left. reflexivity.
    + reflexivity.
    + intros n m i a e. members i; [ reflexivity | discriminate ].
    + apply Post_relationships_avoid; [ reflexivity | discriminate ].
  - apply (E Post); [ exact Post_title_attribute | reflexivity ].
Defined.



Lemma key_hooks_respected_witness :
  jsonGet
    (JSONSerializer.serializeAttribute upperCaseKeys (railsPost JNull []) []
       "title" (attr "string" "App.Post")) "TITLE"
  = JString "Rails is omakase"
  /\ (exists json,
         JSONSerializer.serializeBelongsTo upperCaseKeys
           (omakaseComment JNull (Some (railsPost (JString "1") []))) []
           (mkRelationship "post" BelongsTo None noOptions)
         = Ok json
         /\ jsonGet json "POST" = JString "1")
  /\ jsonGet
       (JSONSerializer.serializeHasMany upperCaseKeys
          (railsPost (JString "1") [omakaseComment (JString "1") None]) []
          (mkRelationship "comments" HasMany None noOptions)) "COMMENTS"
     = JArray [JString "1"]
  /\ jsonGet
       (JSONSerializer.normalize testStore upperCaseKeys Post
          [("id", JNumber 1); ("TITLE", JString "Rails is omakase")]) "title"
     = JString "Rails is omakase"
  /\ jsonGet
       (JSONSerializer.normalize testStore upperCaseKeys Post
          [("id", JNumber 1); ("COMMENTS", JArray [JString "1"])]) "comments"
     = JArray [JString "1"].
Proof.
  destruct (key_hooks_respected testStore upperCaseKeys)
    as [A [B [H [NA NR]]]].
  split; [ | split; [ | split; [ | split ] ] ].
  - exact (A (railsPost JNull []) [] "title" (attr "string" "App.Post")
             eq_refl).
  - exact (B (omakaseComment JNull (Some (railsPost (JString "1") []))) []
             (mkRelationship "post" BelongsTo None noOptions) eq_refl).
  - exact (H (railsPost (JString "1") [omakaseComment (JString "1") None]) []
             (mkRelationship "comments" HasMany None noOptions)).
  - exact (NA Post [("id", JNumber 1); ("TITLE", JString "Rails is omakase")]
              "title" eq_refl Post_title_attribute).
  - exact (NR Post [("id", JNumber 1); ("COMMENTS", JArray [JString "1"])]
              "comments" HasMany Post_comments_relationship).
Defined.

Lemma polymorphic_type_serialized_witness :
  let record := omakaseComment JNull (Some (railsPost (JString "1") [])) in
  let relationship :=
    mkRelationship "post" BelongsTo None (mkOptions InverseUndefined true) in
  let serialized :=
    JSONSerializer.serializeBelongsTo
      (withSerializePolymorphicType typeKeyHook) record [] relationship in
  serialized = typeKeyHook record [("post", JString "1")] relationship
  /\ (exists json, serialized = Ok json /\ jsonGet json "post" = JString "1")
  /\ (exists json,
         serialized = Ok json
         /\ jsonGet json "post" = JString "1"
         /\ jsonGet json "postTYPE" = JString "post")
  /\ JSONSerializer.serializeBelongsTo
       (withSerializePolymorphicType typeKeyHook) (omakaseComment JNull None)
       [] relationship
     = TypeError.
Proof.
  intros record relationship serialized.
  destruct (polymorphic_type_serialized
              (withSerializePolymorphicType typeKeyHook) record []
              relationship eq_refl) as [A [B [C _]]].
  split; [ exact A | split; [ | split ] ].
  - apply B. intro json'. simpl. unfold typeKeyHook. simpl.
    eexists. split; [ reflexivity | ].
    apply jsonGet_set_other. discriminate.
  - exact (C (railsPost (JString "1") []) eq_refl eq_refl eq_refl).
  - exact (proj2 (proj2 (proj2 (polymorphic_type_serialized
                                  (withSerializePolymorphicType typeKeyHook)
                                  (omakaseComment JNull None) []
                                  relationship eq_refl)))
             eq_refl eq_refl).
Defined.

Lemma normalizePayload_applied_witness :
  let this :=
    withNormalizePayload (fun payload => member payload "response") in
  let hash := [("id", JNumber 1); ("title", JString "Rails is omakase")] in
  let payload := JObject [("response", JObject hash)] in
  JSONSerializer.extractSingle testStore this Post payload
  = JObject (JSONSerializer.normalize testStore this Post hash)
  /\ member (JSONSerializer.extractSingle testStore this Post payload) "id"
     = JNumber 1
  /\ member (JSONSerializer.extractSingle testStore this Post payload) "title"
     = JString "Rails is omakase"
  /\ member payload "response" = JObject hash.
Proof.
  intros this hash payload.
  destruct (normalizePayload_applied testStore this Post payload hash eq_refl)
    as [X [I [A R]]].
  split; [ exact X | split; [ | split ] ].
  - exact (I Post_no_id_field).
  - exact (A "title" Post_title_attribute).
  - exact (R eq_refl).
Defined.

(** ** More facts on [Ember.Map] *)

Section MapKeyFacts.
Context {K V : Type} (eqb : K -> K -> bool).
Hypothesis eqb_spec : forall a b, eqb a b = true <-> a = b.

Lemma set_absent : forall (m : list (K * V)) k v,
    ~ In k (EmberMap.keys m) ->
    EmberMap.set eqb m k v = (m ++ [(k, v)])%list.
Proof.
  induction m as [ | [k0 v0] rest IH ]; intros k v H; simpl.
  - reflexivity.
  - destruct (eqb k0 k) eqn:E.
    + apply eqb_spec in E. exfalso. apply H. left. exact E.
    + rewrite IH; [ reflexivity | ]. intro i. apply H. right. exact i.
Qed.

Lemma keys_set_present : forall (m : list (K * V)) k v,
    In k (EmberMap.keys m) ->
    EmberMap.keys (EmberMap.set eqb m k v) = EmberMap.keys m.
Proof.
  induction m as [ | [k0 v0] rest IH ]; intros k v H; simpl.
  - destruct H.
  - destruct (eqb k0 k) eqn:E; simpl; [ reflexivity | ].
    rewrite IH; [ reflexivity | ]. destruct H as [e | i]; [ | exact i ].
    simpl in e. subst k0. rewrite (eqb_same _ eqb_spec) in E. discriminate.
Qed.

Lemma keys_set_absent : forall (m : list (K * V)) k v,
    ~ In k (EmberMap.keys m) ->
    EmberMap.keys (EmberMap.set eqb m k v) = (EmberMap.keys m ++ [k])%list.
Proof.
  intros m k v H. rewrite set_absent by exact H.
  unfold EmberMap.keys. rewrite map_app. reflexivity.
Qed.

Lemma keys_dec : forall (m : list (K * V)) k,
    {In k (EmberMap.keys m)} + {~ In k (EmberMap.keys m)}.
Proof.
  intros m k. destruct (EmberMap.get eqb m k) as [v | ] eqn:E.
  - left. apply (get_Some_keys _ eqb_spec). exists v. exact E.
  - right. apply (get_None_keys _ eqb_spec). exact E.
Qed.

Lemma keys_set_In : forall (m : list (K * V)) k v k',
    In k' (EmberMap.keys (EmberMap.set eqb m k v))
    <-> k' = k \/ In k' (EmberMap.keys m).
Proof.
  intros m k v k'. destruct (keys_dec m k) as [yes | no].
  - rewrite keys_set_present by exact yes. split; [ auto | ].
    intros [-> | i]; assumption.
  - rewrite keys_set_absent by exact no. rewrite in_app_iff. simpl.
    split.
    + intros [i | [e | []]]; [ right; exact i | left; congruence ].
    + intros [e | i]; [ right; left; congruence | left; exact i ].
Qed.

Lemma keys_set_NoDup : forall (m : list (K * V)) k v,
    NoDup (EmberMap.keys m) -> NoDup (EmberMap.keys (EmberMap.set eqb m k v)).
Proof.
  intros m k v nd. destruct (keys_dec m k) as [yes | no].
  - rewrite keys_set_present by exact yes. exact nd.
  - rewrite keys_set_absent by exact no.
    apply NoDup_app; [ exact nd | constructor; [ intros [] | constructor ] | ].
    intros x i [e | []]. subst x. contradiction.
Qed.

(** A loop of writes under distinct keys, none of them present, appends the
    written entries in order. *)
Lemma writes_distinct : forall (P : Type) (key : P -> K)
    (value : P -> option V) (l : list P) (m : list (K * V)),
    NoDup (map key l) ->
    (forall p, In p l -> ~ In (key p) (EmberMap.keys m)) ->
    EmberMap.writes eqb key value l m
    = (m ++ flat_map (fun p => match value p with
                               | Some v => [(key p, v)]
                               | None => []
                               end) l)%list.
Proof.
  intros P key value. unfold EmberMap.writes.
  induction l as [ | p rest IH ]; intros m nd fresh; simpl.
  - rewrite app_nil_r. reflexivity.
  - inversion nd as [ | ? ? notin nd' ]; subst.
    destruct (value p) as [v | ] eqn:Ev.
    + rewrite set_absent by (apply fresh; left; reflexivity).
      rewrite IH; [ rewrite <- app_assoc; reflexivity | exact nd' | ].
      intros q iq i. unfold EmberMap.keys in i. rewrite map_app in i.
      apply in_app_iff in i. destruct i as [i | [e | []]].
      * apply (fresh q (or_intror iq) i).
      * simpl in e. apply notin. rewrite e. apply in_map. exact iq.
    + rewrite IH; [ reflexivity | exact nd' | ].
      intros q iq. apply fresh. right. exact iq.
Qed.

End MapKeyFacts.

(** ** Further facts on the introspection properties *)

Section IntrospectionFacts.
Variable typeForRelationshipMeta : Meta -> option ModelClass.

#[local] Abbreviation relationshipsByName :=
  (Ext.relationshipsByName typeForRelationshipMeta).
#[local] Abbreviation relationships :=
  (Ext.relationships typeForRelationshipMeta).
#[local] Abbreviation typeForRelationship :=
  (Ext.typeForRelationship typeForRelationshipMeta).
#[local] Abbreviation inverseFor :=
  (Ext.inverseFor typeForRelationshipMeta).
#[local] Abbreviation findPossibleInverses :=
  (Ext.findPossibleInverses typeForRelationshipMeta).
#[local] Abbreviation relatedTypes :=
  (Ext.relatedTypes typeForRelationshipMeta).
#[local] Abbreviation descriptorOf :=
  (ExtSpec.descriptorOf typeForRelationshipMeta).
#[local] Abbreviation relationshipOn :=
  (ExtSpec.relationshipOn typeForRelationshipMeta).
#[local] Abbreviation entriesFor :=
  (ExtSpec.entriesFor typeForRelationshipMeta).
#[local] Abbreviation relatedTypesStep :=
  (ExtSpec.relatedTypesStep typeForRelationshipMeta).
#[local] Abbreviation relationshipsStep :=
  (fun (map : list (option ModelClass * list RelationshipEntry))
       (p : string * Meta) =>
     if isRelationship (snd p) then
       EmberMap.set sameType map
         (typeForRelationshipMeta (setKey (fst p) (snd p)))
         (EmberMap.getWithDefault sameType [] map
            (typeForRelationshipMeta (setKey (fst p) (snd p)))
            ++ [mkEntry (fst p) (meta_kind (snd p))])%list
     else map).

Lemma relationships_fold : forall c,
    relationships c = fold_left relationshipsStep (computedProperties c) [].
Proof. intro c. reflexivity. Qed.

Lemma relationships_keys_loop : forall l m type,
    In type (EmberMap.keys (fold_left relationshipsStep l m))
    <-> In type (EmberMap.keys m)
        \/ exists p, In p l /\ isRelationship (snd p) = true
                     /\ typeForRelationshipMeta (setKey (fst p) (snd p))
                        = type.
Proof.
  induction l as [ | p rest IH ]; intros m type; simpl.
  - split; [ auto | intros [i | [p [[] _]]]; exact i ].
  - rewrite IH. destruct (isRelationship (snd p)) eqn:Er.
    + rewrite (keys_set_In _ sameType_spec). split.
      * intros [[e | i] | [q [iq H]]].
        -- right. exists p. split; [ left; reflexivity | ]. auto.
        -- left. exact i.
        -- right. exists q. split; [ right; exact iq | exact H ].
      * intros [i | [q [[e | iq] [r t]]]].
        -- left. right. exact i.
        -- subst q. left. left. symmetry. exact t.
        -- right. exists q. auto.
    + split.
      * intros [i | [q [iq H]]]; [ left; exact i | ].
        right. exists q. split; [ right; exact iq | exact H ].
      * intros [i | [q [[e | iq] [r t]]]].
        -- left. exact i.
        -- subst q. congruence.
        -- right. exists q. auto.
Qed.

Lemma relationships_keys_NoDup_loop : forall l m,
    NoDup (EmberMap.keys m) ->
    NoDup (EmberMap.keys (fold_left relationshipsStep l m)).
Proof.
  induction l as [ | p rest IH ]; intros m nd; simpl.
  - exact nd.
  - apply IH. destruct (isRelationship (snd p)); [ | exact nd ].
    apply (keys_set_NoDup _ sameType_spec). exact nd.
Qed.

Lemma relationships_keys : forall c type,
    In type (EmberMap.keys (relationships c))
    <-> exists name kind, relationshipOn c name kind type.
Proof.
  intros c type. rewrite relationships_fold, relationships_keys_loop.
  split.
  - intros [[] | [[n m] [i [r t]]]]. exists n, (meta_kind m), m. auto.
  - intros [name [kind [meta [i [r [k t]]]]]]. right.
    exists (name, meta). auto.
Qed.

Lemma contains_In : forall types type,
    Ext.contains types type = true <-> In type types.
Proof.
  intros types type. unfold Ext.contains. rewrite existsb_exists. split.
  - intros [x [i e]]. apply sameType_spec in e. subst x. exact i.
  - intro i. exists type. split; [ exact i | ].
    apply sameType_spec. reflexivity.
Qed.

Lemma relatedTypes_keys_loop : forall this l m,
    (forall p, In p l -> isRelationship (snd p) = true ->
               typeForRelationshipMeta (setKey (fst p) (snd p)) <> None) ->
    fold_left (fun acc p => types <- acc ;; relatedTypesStep this types p)
              l (Ok (EmberMap.keys m))
    = Ok (EmberMap.keys (fold_left relationshipsStep l m)).
Proof.
  intros this. induction l as [ | p rest IH ]; intros m H; simpl.
  - reflexivity.
  - assert (forall q, In q rest -> isRelationship (snd q) = true ->
                      typeForRelationshipMeta (setKey (fst q) (snd q))
                      <> None) as Hrest
        by (intros q iq; apply H; right; exact iq).
    unfold ExtSpec.relatedTypesStep.
    destruct (isRelationship (snd p)) eqn:Er; [ | apply IH; exact Hrest ].
    destruct (typeForRelationshipMeta (setKey (fst p) (snd p)))
      as [t | ] eqn:Et;
      [ | exfalso; apply (H p (or_introl eq_refl) Er Et) ].
    destruct (Ext.contains (EmberMap.keys m) (Some t)) eqn:Ec.
    + apply contains_In in Ec.
      rewrite <- (keys_set_present _ sameType_spec m (Some t)
                    (EmberMap.getWithDefault sameType [] m (Some t)
                       ++ [mkEntry (fst p) (meta_kind (snd p))])%list Ec)
        at 1.
      apply IH. exact Hrest.
    + assert (~ In (Some t) (EmberMap.keys m)) as no.
      { intro i. apply contains_In in i. congruence. }
      rewrite <- (keys_set_absent _ sameType_spec m (Some t)
                    (EmberMap.getWithDefault sameType [] m (Some t)
                       ++ [mkEntry (fst p) (meta_kind (snd p))])%list no).
      apply IH. exact Hrest.
Qed.

Lemma relatedTypes_Ok_resolved : forall this types,
    relatedTypes this = Ok types ->
    forall p, In p (computedProperties this) ->
              isRelationship (snd p) = true ->
              typeForRelationshipMeta (setKey (fst p) (snd p)) <> None.
Proof.
  intros this types E [n m] i r none. simpl in r, none.
  rewrite relatedTypes_loop in E.
  destruct (relatedTypes_loop_unresolved typeForRelationshipMeta this
              (computedProperties this) [])
    as [n' [m' [_ [_ [_ F]]]]].
  - exists n, m. auto.
  - rewrite E in F. discriminate.
Qed.

(** X1. When every relationship of a class resolves, [relatedTypes] is the
    list of keys of the [relationships] map, in the same order. *)
Theorem relatedTypes_are_relationships_keys : forall this,
    (forall name meta,
        In (name, meta) (computedProperties this) ->
        isRelationship meta = true ->
        typeForRelationshipMeta (setKey name meta) <> None) ->
    relatedTypes this = Ok (EmberMap.keys (relationships this)).
Proof.
  intros this H. rewrite relatedTypes_loop, relationships_fold.
  apply (relatedTypes_keys_loop this (computedProperties this) []).
  intros [n m]. apply H.
Qed.

Lemma relatedTypes_Ok_keys : forall this types,
    relatedTypes this = Ok types ->
    types = EmberMap.keys (relationships this).
Proof.
  intros this types E.
  assert (relatedTypes this = Ok (EmberMap.keys (relationships this))) as K.
  { rewrite relatedTypes_loop, relationships_fold.
    apply (relatedTypes_keys_loop this (computedProperties this) []).
    apply (relatedTypes_Ok_resolved this types E). }
  rewrite E in K. injection K as K. exact K.
Qed.

Lemma relatedTypes_Ok_members : forall this types,
    relatedTypes this = Ok types ->
    NoDup types
    /\ (forall type,
           In type types <-> exists name kind, relationshipOn this name kind type)
    /\ ~ In None types.
Proof.
  intros this types E.
  pose proof (relatedTypes_Ok_keys this types E) as K. subst types.
  split; [ | split ].
  - rewrite relationships_fold. apply relationships_keys_NoDup_loop.
    constructor.
  - intro type. apply relationships_keys.
  - intro i. apply relationships_keys in i.
    destruct i as [name [kind [meta [i [r [_ t]]]]]].
    apply (relatedTypes_Ok_resolved this _ E (name, meta) i r t).
Qed.

(** X2. A list returned by [relatedTypes] holds each related type once: it
    has no duplicates, no [undefined], and a type is in it exactly when some
    relationship of the class resolves to it. *)
Theorem relatedTypes_each_type_once : forall this types,
    relatedTypes this = Ok types ->
    NoDup types
    /\ (forall type,
           In type types <-> exists name kind, relationshipOn this name kind type)
    /\ ~ In None types.
Proof.
  intros this types E.
  pose proof (relatedTypes_Ok_keys this types E) as K. subst types.
  split; [ | split ].
  - rewrite relationships_fold. apply relationships_keys_NoDup_loop.
    constructor.
  - intro type. apply relationships_keys.
  - intro i. apply relationships_keys in i.
    destruct i as [name [kind [meta [i [r [_ t]]]]]].
    apply (relatedTypes_Ok_resolved this _ E (name, meta) i r t).
Qed.

Lemma fold_left_collect : forall (A : Type) (l acc : list A),
    fold_left (fun visited x => (visited ++ [x])%list) l acc
    = (acc ++ l)%list.
Proof.
  intros A. induction l as [ | x rest IH ]; intro acc; cbn [fold_left].
  - rewrite app_nil_r. reflexivity.
  - rewrite IH. rewrite <- app_assoc. reflexivity.
Qed.

(** X3. When every relationship resolves, [eachRelatedType] calls back once
    for each key of the [relationships] map, in order, and these are
    distinct; when some relationship does not resolve it aborts with the
    assertion of [relatedTypes] and returns nothing of the callback. *)
Theorem eachRelatedType_visits : forall (S : Type) this
    (callback : S -> option ModelClass -> S) (init : S),
    ((forall name meta,
         In (name, meta) (computedProperties this) ->
         isRelationship meta = true ->
         typeForRelationshipMeta (setKey name meta) <> None) ->
     ExtEach.eachRelatedType typeForRelationshipMeta this callback init
     = Ok (fold_left callback (EmberMap.keys (relationships this)) init)
     /\ NoDup (EmberMap.keys (relationships this)))
    /\ ((exists name meta,
            In (name, meta) (computedProperties this)
            /\ isRelationship meta = true
            /\ typeForRelationshipMeta (setKey name meta) = None) ->
        exists name meta,
          In (name, meta) (computedProperties this)
          /\ typeForRelationshipMeta (setKey name meta) = None
          /\ ExtEach.eachRelatedType typeForRelationshipMeta this callback
               init
             = AssertionFailed
                 ("You specified a hasMany (" ++ meta_type meta ++ ") on "
                    ++ meta_parentType meta ++ " but " ++ meta_type meta
                    ++ " was not found.")).
Proof.
  intros S this callback init. unfold ExtEach.eachRelatedType. split.
  - intro H.
    assert (relatedTypes this = Ok (EmberMap.keys (relationships this))) as E.
    { rewrite relatedTypes_loop, relationships_fold.
      apply (relatedTypes_keys_loop this (computedProperties this) []).
      intros [n m]. apply H. }
    rewrite E. split; [ reflexivity | ].
    apply (relatedTypes_Ok_members this _ E).
  - intro H. rewrite relatedTypes_loop.
    destruct (relatedTypes_loop_unresolved typeForRelationshipMeta this
                (computedProperties this) [] H) as [n [m [i [r [u F]]]]].
    exists n, m. rewrite F. auto.
Qed.

Lemma entriesFor_In_iff : forall c type e,
    In e (entriesFor (computedProperties c) type)
    <-> relationshipOn c (ent_name e) (ent_kind e) type.
Proof.
  intros c type e. split; [ apply entriesFor_In | ].
  intros [meta [i [r [k t]]]]. unfold ExtSpec.entriesFor.
  apply in_map_iff. exists (ent_name e, meta). simpl. split.
  - rewrite k. destruct e; reflexivity.
  - apply filter_In. split; [ exact i | ]. simpl. rewrite r. simpl.
    apply sameType_spec. exact t.
Qed.

(** X4. The [relationships] map groups the relationships of a class by the
    type they resolve to: the list under a type holds exactly the
    [{ name, kind }] of the relationships that resolve to it, the keys are
    distinct, and no key holds an empty list. *)
Theorem relationships_grouped_by_type : forall c,
    (forall type e,
        In e (EmberMap.getWithDefault sameType [] (relationships c) type)
        <-> relationshipOn c (ent_name e) (ent_kind e) type)
    /\ NoDup (EmberMap.keys (relationships c))
    /\ (forall type entries,
           EmberMap.get sameType (relationships c) type = Some entries ->
           entries <> []).
Proof.
  intro c. split; [ | split ].
  - intros type e. rewrite relationships_get. apply entriesFor_In_iff.
  - rewrite relationships_fold. apply relationships_keys_NoDup_loop.
    constructor.
  - intros type entries E none. subst entries.
    assert (In type (EmberMap.keys (relationships c))) as i.
    { apply (get_Some_keys _ sameType_spec). exists []. exact E. }
    apply relationships_keys in i. destruct i as [name [kind H]].
    pose proof (relationships_get typeForRelationshipMeta c type) as G.
    unfold EmberMap.getWithDefault in G. rewrite E in G.
    assert (In (mkEntry name kind) (@nil RelationshipEntry)) as bad.
    { rewrite G. apply entriesFor_In_iff. exact H. }
    destruct bad.
Qed.

(** X5. For a class whose computed properties have distinct names, every
    [{ name, kind }] listed under a type in [relationships] is the
    relationship [relationshipsByName] holds under that name, with the same
    kind and that type. *)
Theorem relationships_agree_with_relationshipsByName : forall c type e,
    NoDup (map fst (computedProperties c)) ->
    In e (EmberMap.getWithDefault sameType [] (relationships c) type) ->
    exists r,
      EmberMap.get String.eqb (relationshipsByName c) (ent_name e) = Some r
      /\ rel_key r = ent_name e
      /\ rel_kind r = ent_kind e
      /\ rel_type r = type.
Proof.
  intros c type e nd H. rewrite relationships_get in H.
  apply entriesFor_In in H. destruct H as [meta [i [r [k t]]]].
  rewrite (relationshipsByName_get_unique _ c (ent_name e) meta nd i).
  unfold ExtSpec.descriptorOf. simpl. rewrite r.
  eexists. split; [ reflexivity | ]. simpl. auto.
Qed.

Lemma unique_meta : forall (l : list (string * Meta)) name m1 m2,
    NoDup (map fst l) -> In (name, m1) l -> In (name, m2) l -> m1 = m2.
Proof.
  induction l as [ | [n0 m0] rest IH ]; intros name m1 m2 nd i1 i2;
    [ destruct i1 | ].
  simpl in nd. inversion nd as [ | ? ? notin nd' ]; subst.
  destruct i1 as [e1 | i1], i2 as [e2 | i2].
  - congruence.
  - injection e1 as -> ->. exfalso. apply notin.
    change name with (fst (name, m2)). apply in_map. exact i2.
  - injection e2 as -> ->. exfalso. apply notin.
    change name with (fst (name, m1)). apply in_map. exact i1.
  - apply (IH name m1 m2 nd' i1 i2).
Qed.

Lemma written_relationships : forall (l : list (string * Meta)),
    flat_map (fun p => match descriptorOf p with
                       | Some v => [(fst p, v)]
                       | None => []
                       end) l
    = map (fun p =>
             (fst p,
              mkRelationship (fst p) (meta_kind (snd p))
                (typeForRelationshipMeta (setKey (fst p) (snd p)))
                (meta_options (snd p))))
          (filter (fun p => isRelationship (snd p)) l).
Proof.
  induction l as [ | p rest IH ]; simpl; [ reflexivity | ].
  unfold ExtSpec.descriptorOf at 1.
  destruct (isRelationship (snd p)); simpl; rewrite IH; reflexivity.
Qed.

(** X6. For a class whose computed properties have distinct names,
    [relationshipsByName] lists its relationships in the order they are
    enumerated, each once, under its name, with the descriptor
    [{ key: name, kind, type, options }] of that relationship. *)
Theorem relationshipsByName_in_order : forall c,
    NoDup (map fst (computedProperties c)) ->
    relationshipsByName c
    = map (fun p =>
             (fst p,
              mkRelationship (fst p) (meta_kind (snd p))
                (typeForRelationshipMeta (setKey (fst p) (snd p)))
                (meta_options (snd p))))
          (filter (fun p => isRelationship (snd p)) (computedProperties c)).
Proof.
  intros c nd. rewrite relationshipsByName_writes.
  rewrite (writes_distinct _ string_eqb_spec _ fst descriptorOf
             (computedProperties c) [] nd)
    by (intros p _ []).
  apply written_relationships.
Qed.

Lemma relationshipsByName_ordered : forall c,
    NoDup (map fst (computedProperties c)) ->
    relationshipsByName c
    = map (fun p =>
             (fst p,
              mkRelationship (fst p) (meta_kind (snd p))
                (typeForRelationshipMeta (setKey (fst p) (snd p)))
                (meta_options (snd p))))
          (filter (fun p => isRelationship (snd p)) (computedProperties c)).
Proof.
  intros c nd. rewrite relationshipsByName_writes.
  rewrite (writes_distinct _ string_eqb_spec _ fst descriptorOf
             (computedProperties c) [] nd)
    by (intros p _ []).
  apply written_relationships.
Qed.

(** X7. For a class whose computed properties have distinct names,
    [eachRelationship], on the class or on one of its records, calls back
    once for each relationship, in the order they are enumerated, with the
    relationship's name and a descriptor whose key is that name. *)
Theorem eachRelationship_visits : forall (S : Type) (record : DSRecord)
    (callback : S -> string -> Relationship -> S) (init : S),
    NoDup (map fst (computedProperties (record_class record))) ->
    ExtEach.eachRelationshipOfRecord typeForRelationshipMeta record callback
      init
    = ExtEach.eachRelationship typeForRelationshipMeta (record_class record)
        callback init
    /\ ExtEach.eachRelationship typeForRelationshipMeta (record_class record)
         callback init
       = fold_left
           (fun acc p =>
              callback acc (fst p)
                (mkRelationship (fst p) (meta_kind (snd p))
                   (typeForRelationshipMeta (setKey (fst p) (snd p)))
                   (meta_options (snd p))))
           (filter (fun p => isRelationship (snd p))
                   (computedProperties (record_class record)))
           init
    /\ ExtEach.eachRelationship typeForRelationshipMeta (record_class record)
         (fun visited name _ => (visited ++ [name])%list) []
       = map fst (filter (fun p => isRelationship (snd p))
                         (computedProperties (record_class record))).
Proof.
  intros S record callback init nd.
  split; [ reflexivity | ]. unfold ExtEach.eachRelationship.
  rewrite (relationshipsByName_ordered _ nd). split.
  - generalize init.
    induction (filter (fun p => isRelationship (snd p))
                 (computedProperties (record_class record)))
      as [ | p rest IH ]; intro acc; simpl; [ reflexivity | apply IH ].
  - assert (forall (l : list (string * Meta)) (acc : list string),
               fold_left
                 (fun visited (entry : string * Relationship) =>
                    (visited ++ [fst entry])%list)
                 (map (fun p =>
                         (fst p,
                          mkRelationship (fst p) (meta_kind (snd p))
                            (typeForRelationshipMeta
                               (setKey (fst p) (snd p)))
                            (meta_options (snd p)))) l) acc
               = (acc ++ map fst l)%list) as collect.
    { induction l as [ | p rest IH ]; intro acc; cbn [fold_left map].
      - rewrite app_nil_r. reflexivity.
      - rewrite IH. simpl. rewrite <- app_assoc. reflexivity. }
    exact (collect _ []).
Qed.

Lemma relationshipNames_permutation : forall (l : list (string * Meta)),
    Permutation (ExtSpec.namesOfKind HasMany l
                   ++ ExtSpec.namesOfKind BelongsTo l)
                (map fst (filter (fun p => isRelationship (snd p)) l)).
Proof.
  unfold ExtSpec.namesOfKind.
  induction l as [ | [n m] rest IH ]; simpl; [ constructor | ].
  destruct (isRelationship m); simpl; [ | exact IH ].
  destruct (meta_kind m); simpl.
  - constructor. exact IH.
  - apply Permutation_sym. apply Permutation_cons_app.
    apply Permutation_sym. exact IH.
Qed.

Lemma NoDup_map_filter : forall (A B : Type) (g : A -> B) (f : A -> bool) l,
    NoDup (map g l) -> NoDup (map g (filter f l)).
Proof.
  intros A B g f. induction l as [ | x rest IH ]; intro nd; simpl.
  - constructor.
  - inversion nd as [ | ? ? notin nd' ]; subst.
    destruct (f x); simpl; [ | apply IH; exact nd' ].
    constructor; [ | apply IH; exact nd' ].
    intro i. apply notin. apply in_map_iff in i.
    destruct i as [y [e iy]]. apply filter_In in iy.
    rewrite <- e. apply in_map. apply iy.
Qed.

(** X8. For a class whose computed properties have distinct names, the two
    lists of [relationshipNames] together are a rearrangement of the keys
    of [relationshipsByName]: no name is listed twice or in both lists, and
    each list keeps the order of enumeration. *)
Theorem relationshipNames_partition : forall c,
    NoDup (map fst (computedProperties c)) ->
    Permutation (names_hasMany (Ext.relationshipNames c)
                   ++ names_belongsTo (Ext.relationshipNames c))
                (EmberMap.keys (relationshipsByName c))
    /\ NoDup (names_hasMany (Ext.relationshipNames c)
                ++ names_belongsTo (Ext.relationshipNames c))
    /\ names_hasMany (Ext.relationshipNames c)
       = map fst (filter (fun p => isRelationship (snd p)
                                   && match meta_kind (snd p) with
                                      | HasMany => true
                                      | BelongsTo => false
                                      end)
                         (computedProperties c))
    /\ names_belongsTo (Ext.relationshipNames c)
       = map fst (filter (fun p => isRelationship (snd p)
                                   && match meta_kind (snd p) with
                                      | HasMany => false
                                      | BelongsTo => true
                                      end)
                         (computedProperties c)).
Proof.
  intros c nd. rewrite relationshipNames_lists. simpl.
  assert (EmberMap.keys (relationshipsByName c)
          = map fst (filter (fun p => isRelationship (snd p))
                            (computedProperties c))) as K.
  { rewrite (relationshipsByName_ordered _ nd). unfold EmberMap.keys.
    rewrite map_map. reflexivity. }
  rewrite K.
  pose proof (relationshipNames_permutation (computedProperties c)) as P.
  split; [ exact P | split; [ | split ] ].
  - apply (Permutation_NoDup (Permutation_sym P)).
    apply NoDup_map_filter. exact nd.
  - unfold ExtSpec.namesOfKind. f_equal. apply filter_ext.
    intros [n m]. simpl. destruct (meta_kind m); reflexivity.
  - unfold ExtSpec.namesOfKind. f_equal. apply filter_ext.
    intros [n m]. simpl. destruct (meta_kind m); reflexivity.
Qed.


(** X9. [fields] holds one of the three kinds for a name, and only for a
    name that is an attribute or a relationship of the class; when the
    computed properties have distinct names, a relationship is mapped to
    its kind (also when it is flagged as an attribute too), an attribute to
    [attribute], and any other computed property is left out. *)
Theorem fields_kinds : forall c,
    (forall name kind,
        EmberMap.get String.eqb (Ext.fields c) name = Some kind ->
        (kind = "attribute" \/ kind = "hasMany" \/ kind = "belongsTo")
        /\ exists meta,
            In (name, meta) (computedProperties c)
            /\ (isRelationship meta = true \/ isAttribute meta = true))
    /\ (NoDup (map fst (computedProperties c)) ->
        forall name meta,
          In (name, meta) (computedProperties c) ->
          (isRelationship meta = true ->
           EmberMap.get String.eqb (Ext.fields c) name
           = Some (kindName (meta_kind meta)))
          /\ (isRelationship meta = false -> isAttribute meta = true ->
              EmberMap.get String.eqb (Ext.fields c) name = Some "attribute")
          /\ (isRelationship meta = false -> isAttribute meta = false ->
              EmberMap.get String.eqb (Ext.fields c) name = None)).
Proof.
  intro c. split.
  - intros name kind H. rewrite fields_writes in H.
    rewrite (get_writes _ string_eqb_spec) in H. simpl in H.
    apply (lastWrite_found _ string_eqb_spec) in H.
    destruct H as [H | [[n m] [i [e Ev]]]]; [ discriminate | ].
    simpl in e. subst n. unfold ExtSpec.fieldKindOf in Ev. simpl in Ev.
    destruct (isRelationship m) eqn:Er.
    + injection Ev as <-. split.
      * destruct (meta_kind m); simpl; auto.
      * exists m. auto.
    + destruct (isAttribute m) eqn:Ea; [ | discriminate ].
      injection Ev as <-. split; [ auto | exists m; auto ].
  - intros nd name meta i.
    assert (EmberMap.get String.eqb (Ext.fields c) name
            = ExtSpec.fieldKindOf (name, meta)) as E.
    { rewrite fields_writes, (get_writes _ string_eqb_spec). simpl.
      destruct (ExtSpec.fieldKindOf (name, meta)) as [k | ] eqn:Ek.
      - apply (lastWrite_unique _ string_eqb_spec _ fst ExtSpec.fieldKindOf
                 _ name (name, meta) k None nd i eq_refl Ek).
      - apply (lastWrite_none _ string_eqb_spec).
        intros [n m] iq e. simpl in e. subst n.
        rewrite (unique_meta _ name m meta nd iq i). exact Ek. }
    rewrite E. unfold ExtSpec.fieldKindOf. simpl.
    split; [ | split ].
    + intro r. rewrite r. reflexivity.
    + intros r a. rewrite r, a. reflexivity.
    + intros r a. rewrite r, a. reflexivity.
Qed.

(** X10. [typeForRelationship] answers only with a type some relationship of
    that name resolves to; when the computed properties have distinct names
    it is what [typeForRelationshipMeta] gives for the relationship's
    metadata with [key] set to the name. *)
Theorem typeForRelationship_resolved : forall c name,
    (forall type,
        typeForRelationship c name = Some type ->
        exists kind, relationshipOn c name kind (Some type))
    /\ (NoDup (map fst (computedProperties c)) ->
        forall meta,
          In (name, meta) (computedProperties c) ->
          isRelationship meta = true ->
          typeForRelationship c name
          = typeForRelationshipMeta (setKey name meta)).
Proof.
  intros c name. unfold Ext.typeForRelationship. split.
  - intros type H.
    destruct (EmberMap.get String.eqb (relationshipsByName c) name)
      as [r | ] eqn:E; [ | discriminate ].
    apply relationshipsByName_get_Some in E. destruct E as [meta [i Ed]].
    apply descriptorOf_Some in Ed. simpl in Ed.
    destruct Ed as [rel [_ [kind [type' _]]]].
    exists (meta_kind meta), meta. split; [ exact i | ].
    split; [ exact rel | ]. split; [ reflexivity | congruence ].
  - intros nd meta i r.
    rewrite (relationshipsByName_get_unique _ c name meta nd i).
    unfold ExtSpec.descriptorOf. simpl. rewrite r. reflexivity.
Qed.

Lemma typeForRelationship_has_meta : forall c name type,
    typeForRelationship c name = Some type ->
    exists meta, metaForProperty c name = Ok meta.
Proof.
  intros c name type H. unfold Ext.typeForRelationship in H.
  destruct (EmberMap.get String.eqb (relationshipsByName c) name)
    as [r | ] eqn:E; [ | discriminate ].
  apply relationshipsByName_get_Some in E. destruct E as [meta [i _]].
  assert (In name (EmberMap.keys (computedProperties c))) as k.
  { change name with (fst (name, meta)). apply in_map. exact i. }
  apply (get_Some_keys _ string_eqb_spec) in k. destruct k as [m E].
  exists m. unfold metaForProperty. rewrite E. reflexivity.
Qed.

(** X11. When [inverseFor] aborts on an assertion, the assertion is one of
    its own two and its condition holds: either a named inverse that is not
    a relationship of the related type, or no named inverse and more than
    one candidate.  The metadata lookup is not what fails. *)
Theorem inverseFor_assertion_cause : forall this name message,
    inverseFor this name = AssertionFailed message ->
    exists inverseType meta,
      typeForRelationship this name = Some inverseType
      /\ metaForProperty this name = Ok meta
      /\ ((exists inverseName,
              namedInverse (opt_inverse (meta_options meta))
              = Some inverseName
              /\ ~ definesRelationship inverseType inverseName
              /\ message
                 = "We found no inverse relationships by the name of '"
                     ++ inverseName ++ "' on the '" ++ typeKey inverseType
                     ++ "' model. This is most likely due to a missing attribute on your model definition.")
          \/ (namedInverse (opt_inverse (meta_options meta)) = None
              /\ opt_inverse (meta_options meta) <> InverseNull
              /\ (1 < length (findPossibleInverses this inverseType []))%nat
              /\ message
                 = "You defined the '" ++ name ++ "' relationship on "
                     ++ toString this
                     ++ ", but multiple possible inverse relationships of type "
                     ++ toString this ++ " were found on "
                     ++ toString inverseType
                     ++ ". Look at http://emberjs.com/guides/models/defining-models/#toc_explicit-inverses for how to explicitly specify inverses")).
Proof.
  intros this name message. unfold Ext.inverseFor.
  destruct (typeForRelationship this name) as [inverseType | ] eqn:Et;
    [ | discriminate ].
  destruct (typeForRelationship_has_meta this name inverseType Et)
    as [meta Em].
  rewrite Em. cbn [bind].
  destruct (isNull (opt_inverse (meta_options meta))) eqn:En;
    [ discriminate | ].
  assert (opt_inverse (meta_options meta) <> InverseNull) as notnull.
  { intro e. rewrite e in En. discriminate. }
  destruct (namedInverse (opt_inverse (meta_options meta)))
    as [inverseName | ] eqn:Ei.
  - destruct (EmberMap.get String.eqb (relationshipsByName inverseType)
                inverseName) as [r | ] eqn:Er; simpl; [ discriminate | ].
    intro H. injection H as <-.
    exists inverseType, meta. split; [ reflexivity | ].
    split; [ reflexivity | ]. left. exists inverseName.
    split; [ exact Ei | ]. split; [ | reflexivity ].
    intro Hdef. apply relationshipsByName_defined
      with (typeForRelationshipMeta := typeForRelationshipMeta) in Hdef.
    destruct Hdef as [r' E]. congruence.
  - destruct (findPossibleInverses this inverseType [])
      as [ | e [ | e2 rest ] ] eqn:Ef; simpl; try discriminate.
    intro H. injection H as <-.
    exists inverseType, meta. split; [ reflexivity | ].
    split; [ reflexivity | ]. right.
    split; [ exact Ei | ]. split; [ exact notnull | ].
    split; [ rewrite Ef; simpl; lia | reflexivity ].
Qed.

(** X12. The candidates [findPossibleInverses] adds to the given list are
    the relationships of the related type that resolve to the model or to
    one of its superclasses; those that resolve to the model itself come
    before those found through its superclass. *)
Theorem findPossibleInverses_candidates : forall this inverseType possible,
    (forall e,
        In e (findPossibleInverses this inverseType possible)
        <-> In e possible
            \/ exists target,
                relationshipOn inverseType (ent_name e) (ent_kind e)
                               (Some target)
                /\ In target (ancestry this))
    /\ (forall super,
           superclass this = Some super ->
           findPossibleInverses this inverseType possible
           = (possible
                ++ EmberMap.getWithDefault sameType []
                     (relationships inverseType) (Some this)
                ++ findPossibleInverses super inverseType [])%list)
    /\ (superclass this = None ->
        findPossibleInverses this inverseType possible
        = (possible
             ++ EmberMap.getWithDefault sameType []
                  (relationships inverseType) (Some this))%list).
Proof.
  intros this inverseType possible. split; [ | split ].
  - intro e. rewrite findPossibleInverses_chain, in_app_iff, in_flat_map.
    split.
    + intros [i | [target [i H]]]; [ left; exact i | right ].
      exists target. split; [ apply entriesFor_In; exact H | exact i ].
    + intros [i | [target [H i]]]; [ left; exact i | right ].
      exists target. split; [ exact i | apply entriesFor_In_iff; exact H ].
  - intros super E. destruct this as [k s sup props]. simpl in E. subst sup.
    rewrite !findPossibleInverses_chain, relationships_get. reflexivity.
  - intro E. destruct this as [k s sup props]. simpl in E. subst sup.
    rewrite findPossibleInverses_chain, relationships_get. simpl.
    rewrite app_nil_r. reflexivity.
Qed.

(** X13. The type [typeForRelationship] answers with, and so the type of a
    descriptor [inverseFor] returns, is one of the types [relatedTypes]
    lists. *)
Theorem related_type_listed : forall this name types,
    relatedTypes this = Ok types ->
    (forall type,
        typeForRelationship this name = Some type -> In (Some type) types)
    /\ (forall d,
           inverseFor this name = Ok (Some d) -> In (Some (inv_type d)) types).
Proof.
  intros this name types E.
  assert (forall type,
             typeForRelationship this name = Some type ->
             In (Some type) types) as T.
  { intros type H.
    apply (proj1 (proj2 (relatedTypes_Ok_members this types E))).
    unfold Ext.typeForRelationship in H.
    destruct (EmberMap.get String.eqb (relationshipsByName this) name)
      as [r | ] eqn:Er; [ | discriminate ].
    apply relationshipsByName_get_Some in Er. destruct Er as [meta [i Ed]].
    apply descriptorOf_Some in Ed. simpl in Ed.
    destruct Ed as [rel [_ [kind [type' _]]]].
    exists name, (meta_kind meta), meta. split; [ exact i | ].
    split; [ exact rel | ]. split; [ reflexivity | congruence ]. }
  split; [ exact T | ].
  intros d H. apply T.
  apply (inverseFor_descriptor_sound typeForRelationshipMeta this name d H).
Qed.


Lemma defineProperties_spec : forall definitions proto,
    ModelHooks.proto_constructor
      (fst (ModelHooks.defineProperties proto definitions))
    = ModelHooks.proto_constructor proto
    /\ ModelHooks.proto_observers
         (fst (ModelHooks.defineProperties proto definitions))
       = (ModelHooks.proto_observers proto
            ++ map (fun name => (name, "belongsToDidChange"))
                 (ExtSpec.namesOfKind BelongsTo
                    (ModelHooks.computedPropertiesOf
                       (snd (ModelHooks.defineProperties proto
                               definitions)))))%list
    /\ ModelHooks.proto_beforeObservers
         (fst (ModelHooks.defineProperties proto definitions))
       = (ModelHooks.proto_beforeObservers proto
            ++ map (fun name => (name, "belongsToWillChange"))
                 (ExtSpec.namesOfKind BelongsTo
                    (ModelHooks.computedPropertiesOf
                       (snd (ModelHooks.defineProperties proto
                               definitions)))))%list
    /\ (forall name meta,
           In (name, meta)
              (ModelHooks.computedPropertiesOf
                 (snd (ModelHooks.defineProperties proto definitions))) ->
           isRelationship meta = true ->
           meta_parentType meta = ModelHooks.proto_constructor proto)
    /\ forall kind,
        ExtSpec.namesOfKind kind
          (ModelHooks.computedPropertiesOf
             (snd (ModelHooks.defineProperties proto definitions)))
        = ExtSpec.namesOfKind kind
            (ModelHooks.computedPropertiesOf definitions).
Proof.
  induction definitions as [ | [key value] rest IH ]; intro proto.
  - simpl. rewrite !app_nil_r.
    split; [ reflexivity | ]. split; [ reflexivity | ].
    split; [ reflexivity | ]. split; [ intros name meta [] | reflexivity ].
  - cbn [ModelHooks.defineProperties].
    destruct value as [[meta | ] | ]; cbn [ModelHooks.didDefineProperty].
    + set (proto1 :=
             if isRelationship meta && ModelHooks.isBelongsTo (meta_kind meta)
             then ModelHooks.addBeforeObserver
                    (ModelHooks.addObserver proto key "belongsToDidChange")
                    key "belongsToWillChange"
             else proto).
      assert (ModelHooks.proto_constructor proto1
              = ModelHooks.proto_constructor proto) as C.
      { unfold proto1.
        destruct (isRelationship meta
                  && ModelHooks.isBelongsTo (meta_kind meta)); reflexivity. }
      destruct (IH proto1) as [Hc [Ho [Hb [Hp Hn]]]].
      destruct (ModelHooks.defineProperties proto1 rest) as [proto2 values]
        eqn:E.
      cbn [fst snd] in *. cbn [ModelHooks.computedPropertiesOf].
      split; [ congruence | ].
      unfold ExtSpec.namesOfKind. cbn [filter snd].
      cbn [ModelHooks.setParentType isRelationship meta_kind].
      fold (ExtSpec.namesOfKind BelongsTo
              (ModelHooks.computedPropertiesOf values)).
      split; [ | split; [ | split ] ].
      * rewrite Ho. unfold proto1.
        destruct (isRelationship meta); [ | reflexivity ].
        destruct (meta_kind meta); simpl; [ reflexivity | ].
        rewrite <- app_assoc. reflexivity.
      * rewrite Hb. unfold proto1.
        destruct (isRelationship meta); [ | reflexivity ].
        destruct (meta_kind meta); simpl; [ reflexivity | ].
        rewrite <- app_assoc. reflexivity.
      * intros name m [e | i] r.
        -- injection e as <- <-. reflexivity.
        -- rewrite <- C. apply (Hp name m i r).
      * intro kind. specialize (Hn kind). unfold ExtSpec.namesOfKind in Hn.
        destruct (isRelationship meta
                  && (if Kind_eq_dec (meta_kind meta) kind
                      then true else false));
          simpl; rewrite Hn; reflexivity.
    + destruct (IH proto) as [Hc [Ho [Hb [Hp Hn]]]].
      destruct (ModelHooks.defineProperties proto rest) as [proto2 values].
      cbn [fst snd] in *. cbn [ModelHooks.computedPropertiesOf].
      split; [ exact Hc | ]. split; [ exact Ho | ]. split; [ exact Hb | ].
      split.
      * intros name m [e | i] r; [ | apply (Hp name m i r) ].
        injection e as <- <-. discriminate r.
      * intro kind. unfold ExtSpec.namesOfKind. simpl.
        apply (Hn kind).
    + destruct (IH proto) as [Hc [Ho [Hb [Hp Hn]]]].
      destruct (ModelHooks.defineProperties proto rest) as [proto2 values].
      cbn [fst snd] in *. cbn [ModelHooks.computedPropertiesOf].
      split; [ exact Hc | ]. split; [ exact Ho | ]. split; [ exact Hb | ].
      split; [ exact Hp | exact Hn ].
Qed.


End IntrospectionFacts.

(** ** The further theorems at the classes of the test suite *)

Lemma Comment_names_distinct : NoDup (map fst (computedProperties Comment)).
Proof.
  simpl. repeat constructor; simpl; intuition discriminate.
Defined.

Lemma Comment_relationships_resolve : forall name meta,
    In (name, meta) (computedProperties Comment) ->
    isRelationship meta = true ->
    testStore (setKey name meta) <> None.
Proof.
  intros name meta i r. members i; [ discriminate r | ].
  vm_compute. discriminate.
Defined.

Lemma Orphan_parent_unresolved :
  exists name meta,
    In (name, meta) (computedProperties Orphan)
    /\ isRelationship meta = true
    /\ testStore (setKey name meta) = None.
Proof.
  exists "parent", (belongsTo "ghost" noOptions "App.Orphan").
  split; [ right; left; reflexivity | split; reflexivity ].
Defined.

Lemma relatedTypes_are_relationships_keys_witness :
  Ext.relatedTypes testStore Comment
  = Ok (EmberMap.keys (Ext.relationships testStore Comment)).
Proof.
  apply (relatedTypes_are_relationships_keys testStore Comment).
  exact Comment_relationships_resolve.
Defined.

Lemma relatedTypes_each_type_once_witness :
  NoDup [Some Post]
  /\ (forall type,
         In type [Some Post]
         <-> exists name kind,
             ExtSpec.relationshipOn testStore Comment name kind type)
  /\ ~ In None [Some Post].
Proof.
  apply (relatedTypes_each_type_once testStore Comment). reflexivity.
Defined.

Lemma eachRelatedType_visits_witness :
  ExtEach.eachRelatedType testStore Comment (fun count _ => S count) 0
  = Ok 1
  /\ exists name meta,
      In (name, meta) (computedProperties Orphan)
      /\ testStore (setKey name meta) = None
      /\ ExtEach.eachRelatedType testStore Orphan (fun count _ => S count) 0
         = AssertionFailed
             ("You specified a hasMany (" ++ meta_type meta ++ ") on "
                ++ meta_parentType meta ++ " but " ++ meta_type meta
                ++ " was not found.").
Proof.
  split.
  - exact (proj1 (proj1 (eachRelatedType_visits testStore nat Comment
                           (fun count _ => S count) 0)
                    Comment_relationships_resolve)).
  - exact (proj2 (eachRelatedType_visits testStore nat Orphan
                    (fun count _ => S count) 0)
             Orphan_parent_unresolved).
Defined.

Lemma Post_comments_on :
  ExtSpec.relationshipOn testStore Post "comments" HasMany (Some Comment).
Proof.
  exists (hasMany "comment" (mkOptions InverseNull false) "App.Post").
  split; [ right; left; reflexivity | ].
  split; [ reflexivity | split; reflexivity ].
Defined.

Lemma relationships_grouped_by_type_witness :
  In (mkEntry "comments" HasMany)
     (EmberMap.getWithDefault sameType [] (Ext.relationships testStore Post)
        (Some Comment))
  /\ [mkEntry "comments" HasMany] <> [].
Proof.
  destruct (relationships_grouped_by_type testStore Post) as [A [_ N]].
  split.
  - apply (proj2 (A (Some Comment) (mkEntry "comments" HasMany))).
    exact Post_comments_on.
  - apply (N (Some Comment)). reflexivity.
Defined.

Lemma relationships_agree_with_relationshipsByName_witness :
  exists r,
    EmberMap.get String.eqb (Ext.relationshipsByName testStore Post)
                 "comments" = Some r
    /\ rel_key r = "comments"
    /\ rel_kind r = HasMany
    /\ rel_type r = Some Comment.
Proof.
  apply (relationships_agree_with_relationshipsByName testStore Post
           (Some Comment) (mkEntry "comments" HasMany) Post_names_distinct).
  left. reflexivity.
Defined.

Lemma relationshipsByName_in_order_witness :
  Ext.relationshipsByName testStore Post
  = [("comments",
      mkRelationship "comments" HasMany (Some Comment)
                     (mkOptions InverseNull false))].
Proof.
  exact (relationshipsByName_in_order testStore Post Post_names_distinct).
Defined.

Lemma eachRelationship_visits_witness :
  ExtEach.eachRelationshipOfRecord testStore
    (omakaseComment JNull None)
    (fun visited name _ => (visited ++ [name])%list) []
  = ExtEach.eachRelationship testStore Comment
      (fun visited name _ => (visited ++ [name])%list) []
  /\ ExtEach.eachRelationship testStore Comment
       (fun visited name _ => (visited ++ [name])%list) []
     = ["post"].
Proof.
  destruct (eachRelationship_visits testStore (list string)
              (omakaseComment JNull None)
              (fun visited name _ => (visited ++ [name])%list) []
              Comment_names_distinct) as [A [_ C]].
  split; [ exact A | exact C ].
Defined.

Lemma relationshipNames_partition_witness :
  Permutation (names_hasMany (Ext.relationshipNames Post)
                 ++ names_belongsTo (Ext.relationshipNames Post))
              (EmberMap.keys (Ext.relationshipsByName testStore Post))
  /\ NoDup (names_hasMany (Ext.relationshipNames Post)
              ++ names_belongsTo (Ext.relationshipNames Post)).
Proof.
  destruct (relationshipNames_partition testStore Post Post_names_distinct)
    as [P [N _]].
  split; [ exact P | exact N ].
Defined.

Lemma fields_kinds_witness :
  (("attribute" = "attribute" \/ "attribute" = "hasMany"
    \/ "attribute" = "belongsTo")
   /\ exists meta,
       In ("title", meta) (computedProperties Post)
       /\ (isRelationship meta = true \/ isAttribute meta = true))
  /\ EmberMap.get String.eqb (Ext.fields Post) "comments" = Some "hasMany"
  /\ EmberMap.get String.eqb (Ext.fields Post) "title" = Some "attribute".
Proof.
  destruct (fields_kinds Post) as [A B].
  split; [ exact (A "title" "attribute" eq_refl) | split ].
  - exact (proj1 (B Post_names_distinct "comments"
                    (hasMany "comment" (mkOptions InverseNull false)
                       "App.Post")
                    (or_intror (or_introl eq_refl)))
             eq_refl).
  - exact (proj1 (proj2 (B Post_names_distinct "title"
                           (attr "string" "App.Post") (or_introl eq_refl)))
             eq_refl eq_refl).
Defined.

Lemma typeForRelationship_resolved_witness :
  (exists kind, ExtSpec.relationshipOn testStore Comment "post" kind (Some Post))
  /\ Ext.typeForRelationship testStore Comment "post"
     = testStore (setKey "post" (belongsTo "post" noOptions "App.Comment")).
Proof.
  destruct (typeForRelationship_resolved testStore Comment "post") as [A B].
  split.
  - exact (A Post eq_refl).
  - exact (B Comment_names_distinct
             (belongsTo "post" noOptions "App.Comment")
             (or_intror (or_introl eq_refl)) eq_refl).
Defined.

Lemma inverseFor_assertion_cause_witness :
  exists inverseType meta,
    Ext.typeForRelationship libraryStore Book "owner" = Some inverseType
    /\ metaForProperty Book "owner" = Ok meta
    /\ namedInverse (opt_inverse (meta_options meta)) = Some "library"
    /\ ~ definesRelationship inverseType "library".
Proof.
  destruct (inverseFor_assertion_cause libraryStore Book "owner"
              "We found no inverse relationships by the name of 'library' on the 'author' model. This is most likely due to a missing attribute on your model definition."
              eq_refl) as [inverseType [meta [Et [Em H]]]].
  exists inverseType, meta. split; [ exact Et | ]. split; [ exact Em | ].
  vm_compute in Em. injection Em as <-.
  destruct H as [[inverseName [Ei [Hno _]]] | [Ei _]].
  - vm_compute in Ei. injection Ei as <-.
    split; [ reflexivity | exact Hno ].
  - vm_compute in Ei. discriminate Ei.
Defined.

Lemma findPossibleInverses_candidates_witness :
  In (mkEntry "comments" HasMany)
     (Ext.findPossibleInverses testStore Comment Post [])
  /\ Ext.findPossibleInverses testStore Comment Post []
     = ([] ++ EmberMap.getWithDefault sameType []
                (Ext.relationships testStore Post) (Some Comment)
           ++ Ext.findPossibleInverses testStore Model Post [])%list
  /\ Ext.findPossibleInverses testStore Model Post []
     = ([] ++ EmberMap.getWithDefault sameType []
                (Ext.relationships testStore Post) (Some Model))%list.
Proof.
  split; [ | split ].
  - apply (proj2 (proj1 (findPossibleInverses_candidates testStore Comment
                           Post [])
                    (mkEntry "comments" HasMany))).
    right. exists Comment. split; [ exact Post_comments_on | ].
    left. reflexivity.
  - exact (proj1 (proj2 (findPossibleInverses_candidates testStore Comment
                           Post []))
             Model eq_refl).
  - exact (proj2 (proj2 (findPossibleInverses_candidates testStore Model
                           Post []))
             eq_refl).
Defined.

Lemma related_type_listed_witness :
  In (Some Post) [Some Post] /\ In (Some Post) [Some Post].
Proof.
  destruct (related_type_listed testStore Comment "post" [Some Post] eq_refl)
    as [A B].
  split.
  - exact (A Post eq_refl).
  - exact (B (mkInverse Post "comments" HasMany) eq_refl).
Defined.

